(** * Tomorrow.io sensor rendering and the Meteoclimatic polling adapter

    A shallow embedding of
      - [homeassistant/components/tomorrowio/sensor.py]: the sensor
        description dataclass with its [__post_init__] validation, the
        [handle_conversion] helper, [BaseTomorrowioSensorEntity.native_value]
        and [TomorrowioSensorEntity._state];
      - [homeassistant/components/meteoclimatic/__init__.py]: the
        [async_update_data] closure handed to the update coordinator.

    Python values are modelled as the code has them: [int] as [Z], [float] as
    the kernel's binary64 [float], [str] as [string], [None] as a constructor
    of its own, exceptions as an error result. *)

From Stdlib Require Import ZArith String Ascii List Floats Bool.
From stdpp Require Import gmap strings.

Import ListNotations.
Local Open Scope Z_scope.
Local Open Scope string_scope.

(** ** Python runtime: exceptions and results *)

Set Warnings "-register-all,-inexact-float".

(** The exceptions the two modules can raise or let through.
    [UpdateFailed] keeps the [__cause__] set by [raise ... from err]. *)
Inductive exn : Type :=
| ValueError (msg : string)
| AssertionError
| OverflowError (msg : string)
| MeteoclimaticError (msg : string)   (* the provider's error class *)
| UpdateFailed (msg : string) (cause : option exn)
| Exception (msg : string).

(** Outcome of evaluating a Python expression: a value or a raised exception. *)
Inductive result (A : Type) : Type :=
| Ok (a : A)
| Raise (e : exn).
Arguments Ok {A} a.
Arguments Raise {A} e.

Definition bind {A B : Type} (r : result A) (k : A -> result B) : result B :=
  match r with
  | Ok a => k a
  | Raise e => Raise e
  end.

Notation "'let*' x := r 'in' k" := (bind r (fun x => k))
  (at level 10, x name, r at level 100, k at level 200).

(** ** Python runtime: numbers *)

Module Py.

(** [int | float]: the two numeric types a raw state can have. *)
Inductive num : Type :=
| NInt (z : Z)
| NFloat (f : float).

(** [str | int | float | None]: a snapshot value or a rendered state. *)
Inductive value : Type :=
| VNone
| VNum (n : num)
| VStr (s : string).

(** [float(z)] for an [int]: the nearest binary64 value, ties to even;
    an [int] beyond the binary64 range raises [OverflowError]. *)
Definition float_of_int (z : Z) : result float :=
  match binary_normalize prec emax z 0 false with
  | S754_infinity _ => Raise (OverflowError "int too large to convert to float")
  | sf => Ok (SF2Prim sf)
  end.

(** [float(value)] for [value : float | int]. *)
Definition to_float (n : num) : result float :=
  match n with
  | NInt z => float_of_int z
  | NFloat f => Ok f
  end.

(** Nearest integer to [n / d], ties to even ([d] positive). *)
Definition div_half_even (n d : Z) : Z :=
  let q := n / d in
  let r := n mod d in
  match 2 * r ?= d with
  | Lt => q
  | Gt => q + 1
  | Eq => if Z.even q then q else q + 1
  end.

(** [round(x, ndigits)] for a [float] and [ndigits >= 0]: the exact value
    of [x] is rounded to [ndigits] decimal places, ties to even, and the
    decimal result is read back as the nearest binary64 value.  Zeros,
    infinities and NaN round to themselves; the sign is kept. *)
Definition round (x : float) (ndigits : N) : float :=
  match Prim2SF x with
  | S754_finite s m e =>
      let scale := 10 ^ Z.of_N ndigits in
      let n :=
        match e with
        | Zneg p => div_half_even (Zpos m * scale) (2 ^ Zpos p)
        | _ => Zpos m * scale * 2 ^ e
        end in
      match n, scale with
      | Zpos p, Zpos d =>
          SF2Prim (SFdiv prec emax (S754_finite s p 0) (S754_finite false d 0))
      | _, _ => SF2Prim (S754_zero s)
      end
  | _ => x
  end.

(** Truth value of a [float]: zero of either sign is false, NaN is true. *)
Definition float_truthy (c : float) : bool := negb (PrimFloat.eqb c 0%float).

(** The integer a [float] equals, when it equals one ([1.0 == 1]). *)
Definition float_as_int (x : float) : option Z :=
  match Prim2SF x with
  | S754_zero _ => Some 0
  | S754_finite s m e =>
      let sign := if s then (-1) else 1 in
      match e with
      | Zneg p =>
          if Z.eqb (Zpos m mod 2 ^ Zpos p) 0
          then Some (sign * (Zpos m / 2 ^ Zpos p))
          else None
      | _ => Some (sign * (Zpos m * 2 ^ e))
      end
  | _ => None
  end.

(** The [int] a number equals under Python's [==], if any. *)
Definition as_int (n : num) : option Z :=
  match n with
  | NInt z => Some z
  | NFloat f => float_as_int f
  end.

(** [str.lower()] on ASCII text: [A]..[Z] go to [a]..[z]. *)
Definition lower_ascii (c : ascii) : ascii :=
  let n := nat_of_ascii c in
  if ((65 <=? n)%nat && (n <=? 90)%nat)%bool then ascii_of_nat (n + 32) else c.

Fixpoint lower (s : string) : string :=
  match s with
  | EmptyString => EmptyString
  | String c s' => String (lower_ascii c) (lower s')
  end.

End Py.

Import Py.

(** ** homeassistant/components/tomorrowio/sensor.py *)

(** The members of [SensorDeviceClass] the description table uses. *)
Inductive SensorDeviceClass : Type :=
| AQI | CO | ENUM | IRRADIANCE | NITROGEN_DIOXIDE | OZONE
| PM10 | PM25 | PRESSURE | SULPHUR_DIOXIDE | TEMPERATURE.

(** [hass.config.units]: the code only tests [is US_CUSTOMARY_SYSTEM]. *)
Inductive UnitSystem : Type :=
| METRIC_SYSTEM
| US_CUSTOMARY_SYSTEM.

Definition is_us_customary (u : UnitSystem) : bool :=
  match u with
  | US_CUSTOMARY_SYSTEM => true
  | METRIC_SYSTEM => false
  end.

(** [Callable[[float], float] | float]: what [handle_conversion] tells apart
    with [callable(conversion)]. *)
Inductive Conversion : Type :=
| Constant (c : float)
| Callable (f : float -> float).

(** Truth value of a conversion, as [if desc.imperial_conversion and ...]
    reads it: a zero constant is false, any function is true. *)
Definition conversion_truthy (c : Conversion) : bool :=
  match c with
  | Constant k => float_truthy k
  | Callable _ => true
  end.

(** An [IntEnum] class used as [value_map]: its members in definition
    order.  Iterating the class yields them in this order, and calling the
    class on a value returns the member with that value or raises
    [ValueError]. *)
Module Enum.

Record Member : Type := { name : string; value : Z }.

Definition Class : Type := list Member.

(** [cls(v)]: lookup by value. *)
Definition call (cls : Class) (v : num) : result Member :=
  match as_int v with
  | Some z =>
      match List.find (fun m => Z.eqb (value m) z) cls with
      | Some m => Ok m
      | None => Raise (ValueError "not a valid member value")
      end
  | None => Raise (ValueError "not a valid member value")
  end.

End Enum.

(** [x is None] *)
Definition is_none {A : Type} (x : option A) : bool :=
  match x with
  | None => true
  | Some _ => false
  end.

(** [TomorrowioSensorEntityDescription]: the dataclass fields, those of
    [SensorEntityDescription] that the module sets or reads first. *)
Record TomorrowioSensorEntityDescription : Type := {
  key : string;
  device_class : option SensorDeviceClass;
  native_unit_of_measurement : option string;
  options : option (list string);
  name : string;
  attribute : string;
  unit_imperial : option string;
  unit_metric : option string;
  multiplication_factor : option Conversion;
  imperial_conversion : option Conversion;
  value_map : option Enum.Class
}.

(** [self.device_class = ...; self.options = ...] on the dataclass instance. *)
Definition set_enum_fields (self : TomorrowioSensorEntityDescription)
    (dc : SensorDeviceClass) (opts : list string) : TomorrowioSensorEntityDescription :=
  {| key := key self;
     device_class := Some dc;
     native_unit_of_measurement := native_unit_of_measurement self;
     options := Some opts;
     name := name self;
     attribute := attribute self;
     unit_imperial := unit_imperial self;
     unit_metric := unit_metric self;
     multiplication_factor := multiplication_factor self;
     imperial_conversion := imperial_conversion self;
     value_map := value_map self |}.

Definition units_error : string :=
  "Entity descriptions must include both imperial and metric units or they must both be None".

(** [__post_init__]: runs at the end of the generated [__init__], on the
    instance whose fields hold the constructor's arguments; construction
    returns the instance it leaves, or raises what it raises. *)
Definition __post_init__ (self : TomorrowioSensorEntityDescription)
    : result TomorrowioSensorEntityDescription :=
  if (is_none (unit_imperial self) && negb (is_none (unit_metric self)))
     || (negb (is_none (unit_imperial self)) && is_none (unit_metric self))
  then Raise (ValueError units_error)
  else
    match value_map self with
    | Some vm => Ok (set_enum_fields self ENUM (List.map (fun item => lower (Enum.name item)) vm))
    | None => Ok self
    end.

(** [convert_ppb_to_ugm3]: x ug/m^3 = y ppb * molecular weight / 24.45.  An
    [int] weight enters [x * molecular_weight] as the [float] it equals. *)
Definition convert_ppb_to_ugm3 (molecular_weight : float) : float -> float :=
  fun x => ((x * molecular_weight) / 24.45)%float.

(** [handle_conversion]: a callable is applied to [float(value)], a constant
    multiplies it; either way the result is rounded to 2 places. *)
Definition handle_conversion (v : num) (conversion : Conversion) : result float :=
  match conversion with
  | Callable f => let* x := to_float v in Ok (Py.round (f x) 2)
  | Constant c => let* x := to_float v in Ok (Py.round (x * c)%float 2)
  end.

(** What an entity reads: the unit system of [hass.config.units], its
    description, and the current-conditions snapshot the coordinator holds
    for its config entry. *)
Record Entity : Type := {
  hass_config_units : UnitSystem;
  entity_description : TomorrowioSensorEntityDescription;
  current : gmap string Py.value
}.

(** Modelled from the spec: [TomorrowioEntity._get_current_property] is
    defined in the integration's [__init__.py], which is not among the
    sources here.  Following the data flow of the spec ("look up the raw
    value by field key in the current snapshot; absent: render nothing"), it
    is the dictionary's [get]: the stored value, or [None] when the key is
    absent. *)
Definition _get_current_property (self : Entity) (property_name : string) : Py.value :=
  default VNone (current self !! property_name).

Module BaseTomorrowioSensorEntity.
Section WithState.

(** The abstract property [_state]: [int | float | None], or an exception. *)
Variable _state : Entity -> result (option num).

(** [native_value]; the numbers in comments are the source lines. *)
Definition native_value (self : Entity) : result Py.value :=
  let* state := _state self in                                    (* 400 *)
  let desc := entity_description self in                          (* 401 *)
  match state with
  | None => Ok VNone                                              (* 403 *)
  | Some state =>
      match value_map desc with
      | Some vm =>                                                (* 406 *)
          let* member := Enum.call vm state in
          Ok (VStr (lower (Enum.name member)))
      | None =>
          let* state :=                                           (* 409 *)
            match multiplication_factor desc with
            | Some factor =>
                let* x := handle_conversion state factor in Ok (NFloat x)
            | None => Ok state
            end in
          match imperial_conversion desc with                     (* 414 *)
          | Some conv =>
              if conversion_truthy conv
                 && negb (is_none (unit_imperial desc))
                 && negb (bool_decide (unit_imperial desc = unit_metric desc))
                 && is_us_customary (hass_config_units self)
              then let* x := handle_conversion state conv in Ok (VNum (NFloat x))
              else Ok (VNum state)                                (* 422 *)
          | None => Ok (VNum state)                               (* 422 *)
          end
      end
  end.

End WithState.
End BaseTomorrowioSensorEntity.

Module TomorrowioSensorEntity.

(** [_state]: the snapshot value of the description's attribute; the
    [assert] rejects a string (assertions are on, as they are unless the
    interpreter runs with [-O]). *)
Definition _state (self : Entity) : result (option num) :=
  let val := _get_current_property self (attribute (entity_description self)) in
  match val with
  | VStr _ => Raise AssertionError
  | VNone => Ok None
  | VNum n => Ok (Some n)
  end.

Definition native_value : Entity -> result Py.value :=
  BaseTomorrowioSensorEntity.native_value _state.

End TomorrowioSensorEntity.

(** Lines 409 and 410 on their own: the state that reaches the imperial test. *)
Definition after_multiplication (desc : TomorrowioSensorEntityDescription)
    (state : num) : result num :=
  match multiplication_factor desc with
  | Some factor => let* x := handle_conversion state factor in Ok (NFloat x)
  | None => Ok state
  end.

(** The test of lines 414 to 419 for a description whose
    [imperial_conversion] is [conv]. *)
Definition imperial_applies (units : UnitSystem)
    (desc : TomorrowioSensorEntityDescription) (conv : Conversion) : bool :=
  conversion_truthy conv
  && negb (is_none (unit_imperial desc))
  && negb (bool_decide (unit_imperial desc = unit_metric desc))
  && is_us_customary units.

(** Rendering as section 4.2 of the specification words it, steps 1 to 5 as
    one exclusive chain ("else, if ..."): written from the specification,
    to be compared with [native_value]. *)
Definition rendering_else_chain (units : UnitSystem)
    (desc : TomorrowioSensorEntityDescription) (raw : option num) : result Py.value :=
  match raw with
  | None => Ok VNone
  | Some state =>
      match value_map desc, multiplication_factor desc, imperial_conversion desc with
      | Some vm, _, _ =>
          let* member := Enum.call vm state in Ok (VStr (lower (Enum.name member)))
      | None, Some factor, _ =>
          let* x := handle_conversion state factor in Ok (VNum (NFloat x))
      | None, None, Some conv =>
          if imperial_applies units desc conv
          then let* x := handle_conversion state conv in Ok (VNum (NFloat x))
          else Ok (VNum state)
      | None, None, None => Ok (VNum state)
      end
  end.

(** *** Entries of [SENSOR_TYPES]

    The arguments each constructor call passes; the table entry is what
    [__post_init__] leaves.  The names imported from [.const],
    [homeassistant.const] and [pytomorrowio.const] are variables of the
    section. *)
Section SENSOR_TYPES.

Variables TMRW_ATTR_SOLAR_GHI TMRW_ATTR_PRECIPITATION_TYPE : string.
Variables TMRW_ATTR_OZONE TMRW_ATTR_CARBON_MONOXIDE : string.
Variables BTUS_PER_HOUR_SQUARE_FOOT WATTS_PER_SQUARE_METER : string.
Variables CONCENTRATION_MICROGRAMS_PER_CUBIC_METER CONCENTRATION_PARTS_PER_MILLION : string.
Variable PrecipitationType : Enum.Class.

Definition global_horizontal_irradiance : result TomorrowioSensorEntityDescription :=
  __post_init__
    {| key := "global_horizontal_irradiance";
       device_class := Some IRRADIANCE;
       native_unit_of_measurement := None;
       options := None;
       name := "Global Horizontal Irradiance";
       attribute := TMRW_ATTR_SOLAR_GHI;
       unit_imperial := Some BTUS_PER_HOUR_SQUARE_FOOT;
       unit_metric := Some WATTS_PER_SQUARE_METER;
       multiplication_factor := None;
       imperial_conversion := Some (Constant (1 / 3.15459)%float);
       value_map := None |}.

Definition precipitation_type : result TomorrowioSensorEntityDescription :=
  __post_init__
    {| key := "precipitation_type";
       device_class := None;
       native_unit_of_measurement := None;
       options := None;
       name := "Precipitation Type";
       attribute := TMRW_ATTR_PRECIPITATION_TYPE;
       unit_imperial := None;
       unit_metric := None;
       multiplication_factor := None;
       imperial_conversion := None;
       value_map := Some PrecipitationType |}.

Definition ozone : result TomorrowioSensorEntityDescription :=
  __post_init__
    {| key := "ozone";
       device_class := Some OZONE;
       native_unit_of_measurement := Some CONCENTRATION_MICROGRAMS_PER_CUBIC_METER;
       options := None;
       name := "Ozone";
       attribute := TMRW_ATTR_OZONE;
       unit_imperial := None;
       unit_metric := None;
       multiplication_factor := Some (Callable (convert_ppb_to_ugm3 48%float));
       imperial_conversion := None;
       value_map := None |}.

Definition carbon_monoxide : result TomorrowioSensorEntityDescription :=
  __post_init__
    {| key := "carbon_monoxide";
       device_class := Some CO;
       native_unit_of_measurement := Some CONCENTRATION_PARTS_PER_MILLION;
       options := None;
       name := "Carbon Monoxide";
       attribute := TMRW_ATTR_CARBON_MONOXIDE;
       unit_imperial := None;
       unit_metric := None;
       multiplication_factor := Some (Constant (1 / 1000)%float);
       imperial_conversion := None;
       value_map := None |}.

End SENSOR_TYPES.

(** ** homeassistant/components/meteoclimatic/__init__.py *)

Module Meteoclimatic.

(** The object [weather_at_station] returns, as its attribute dictionary. *)
Record Observation : Type := { __dict__ : gmap string Py.value }.

Section async_setup_entry.

Variable station_code : string.
(** [meteoclimatic_client.weather_at_station], run by the executor and
    awaited: its value or the exception it raised. *)
Variable weather_at_station : string -> result Observation.

Definition async_update_data : result (gmap string Py.value) :=
  match weather_at_station station_code with
  | Ok data => Ok (__dict__ data)
  | Raise (MeteoclimaticError msg) =>
      Raise (UpdateFailed ("Error while retrieving data: " ++ msg)
                          (Some (MeteoclimaticError msg)))
  | Raise err => Raise err
  end.

End async_setup_entry.

(** Modelled from the spec: [DataUpdateCoordinator] lives in
    [homeassistant/helpers/update_coordinator.py], which is not among the
    sources here.  Section 4.1: "on success, replace the shared snapshot
    with the new record; on provider-level failure, surface a distinguished
    update failed condition carrying the error cause, leaving the
    last-known snapshot in place"; section 8: a failed poll "marks the
    integration's last update as failed without raising out of the
    scheduler". *)
Record Coordinator : Type := {
  data : option (gmap string Py.value);
  last_update_success : bool;
  last_exception : option exn
}.

(** Modelled from the spec: one tick of the coordinator, storing what the
    update method returned or recording that it failed. *)
Definition refresh (update_method : result (gmap string Py.value))
    (c : Coordinator) : Coordinator :=
  match update_method with
  | Ok snapshot =>
      {| data := Some snapshot; last_update_success := true; last_exception := None |}
  | Raise err =>
      {| data := data c; last_update_success := false; last_exception := Some err |}
  end.

End Meteoclimatic.

(** ** The whole description table and entity construction *)

(** The names [sensor.py] imports and the table or the constructor use,
    from [.const], [homeassistant.const], [pytomorrowio.const] and
    [homeassistant.util.unit_conversion]: none is defined under the
    sources here, so their values are fields of one record. *)
Record Imports : Type := {
  DOMAIN : string;
  CONF_API_KEY : string;
  CONF_NAME : string;
  TMRW_ATTR_CARBON_MONOXIDE : string;
  TMRW_ATTR_CHINA_AQI : string;
  TMRW_ATTR_CHINA_HEALTH_CONCERN : string;
  TMRW_ATTR_CHINA_PRIMARY_POLLUTANT : string;
  TMRW_ATTR_CLOUD_BASE : string;
  TMRW_ATTR_CLOUD_CEILING : string;
  TMRW_ATTR_CLOUD_COVER : string;
  TMRW_ATTR_DEW_POINT : string;
  TMRW_ATTR_EPA_AQI : string;
  TMRW_ATTR_EPA_HEALTH_CONCERN : string;
  TMRW_ATTR_EPA_PRIMARY_POLLUTANT : string;
  TMRW_ATTR_FEELS_LIKE : string;
  TMRW_ATTR_FIRE_INDEX : string;
  TMRW_ATTR_NITROGEN_DIOXIDE : string;
  TMRW_ATTR_OZONE : string;
  TMRW_ATTR_PARTICULATE_MATTER_10 : string;
  TMRW_ATTR_PARTICULATE_MATTER_25 : string;
  TMRW_ATTR_POLLEN_GRASS : string;
  TMRW_ATTR_POLLEN_TREE : string;
  TMRW_ATTR_POLLEN_WEED : string;
  TMRW_ATTR_PRECIPITATION_TYPE : string;
  TMRW_ATTR_PRESSURE_SURFACE_LEVEL : string;
  TMRW_ATTR_SOLAR_GHI : string;
  TMRW_ATTR_SULPHUR_DIOXIDE : string;
  TMRW_ATTR_UV_HEALTH_CONCERN : string;
  TMRW_ATTR_UV_INDEX : string;
  TMRW_ATTR_WIND_GUST : string;
  CONCENTRATION_MICROGRAMS_PER_CUBIC_METER : string;
  CONCENTRATION_PARTS_PER_MILLION : string;
  PERCENTAGE : string;
  BTUS_PER_HOUR_SQUARE_FOOT : string;
  WATTS_PER_SQUARE_METER : string;
  KILOMETERS : string;
  MILES : string;
  HPA : string;
  METERS_PER_SECOND : string;
  MILES_PER_HOUR : string;
  CELSIUS : string;
  HealthConcernType : Enum.Class;
  PollenIndex : Enum.Class;
  PrecipitationType : Enum.Class;
  PrimaryPollutantType : Enum.Class;
  UVDescription : Enum.Class;
  DistanceConverter_convert : float -> string -> string -> float;
  SpeedConverter_convert : float -> string -> string -> float
}.

(** The dataclass defaults, for a call that passes [key], [attribute] and
    [name] (every call of the table does), and one function per further
    keyword argument.  [icon], [translation_key] and [state_class] are
    fields of the base class that this module never reads; they are not
    part of [TomorrowioSensorEntityDescription] here. *)
Definition description_defaults (k a n : string) : TomorrowioSensorEntityDescription :=
  {| key := k; device_class := None; native_unit_of_measurement := None;
     options := None; name := n; attribute := a;
     unit_imperial := None; unit_metric := None;
     multiplication_factor := None; imperial_conversion := None;
     value_map := None |}.

Definition with_device_class (dc : SensorDeviceClass)
    (d : TomorrowioSensorEntityDescription) : TomorrowioSensorEntityDescription :=
  {| key := key d; device_class := Some dc;
     native_unit_of_measurement := native_unit_of_measurement d;
     options := options d; name := name d; attribute := attribute d;
     unit_imperial := unit_imperial d; unit_metric := unit_metric d;
     multiplication_factor := multiplication_factor d;
     imperial_conversion := imperial_conversion d; value_map := value_map d |}.

Definition with_native_unit (u : string)
    (d : TomorrowioSensorEntityDescription) : TomorrowioSensorEntityDescription :=
  {| key := key d; device_class := device_class d;
     native_unit_of_measurement := Some u;
     options := options d; name := name d; attribute := attribute d;
     unit_imperial := unit_imperial d; unit_metric := unit_metric d;
     multiplication_factor := multiplication_factor d;
     imperial_conversion := imperial_conversion d; value_map := value_map d |}.

Definition with_units (ui um : string) (conv : Conversion)
    (d : TomorrowioSensorEntityDescription) : TomorrowioSensorEntityDescription :=
  {| key := key d; device_class := device_class d;
     native_unit_of_measurement := native_unit_of_measurement d;
     options := options d; name := name d; attribute := attribute d;
     unit_imperial := Some ui; unit_metric := Some um;
     multiplication_factor := multiplication_factor d;
     imperial_conversion := Some conv; value_map := value_map d |}.

Definition with_multiplication_factor (factor : Conversion)
    (d : TomorrowioSensorEntityDescription) : TomorrowioSensorEntityDescription :=
  {| key := key d; device_class := device_class d;
     native_unit_of_measurement := native_unit_of_measurement d;
     options := options d; name := name d; attribute := attribute d;
     unit_imperial := unit_imperial d; unit_metric := unit_metric d;
     multiplication_factor := Some factor;
     imperial_conversion := imperial_conversion d; value_map := value_map d |}.

Definition with_value_map (vm : Enum.Class)
    (d : TomorrowioSensorEntityDescription) : TomorrowioSensorEntityDescription :=
  {| key := key d; device_class := device_class d;
     native_unit_of_measurement := native_unit_of_measurement d;
     options := options d; name := name d; attribute := attribute d;
     unit_imperial := unit_imperial d; unit_metric := unit_metric d;
     multiplication_factor := multiplication_factor d;
     imperial_conversion := imperial_conversion d; value_map := Some vm |}.

(** Evaluating a tuple display: the elements left to right, the first
    exception ends it. *)
Fixpoint sequence {A : Type} (l : list (result A)) : result (list A) :=
  match l with
  | [] => Ok []
  | r :: l' => let* a := r in let* l'' := sequence l' in Ok (a :: l'')
  end.

(** [for x in l]: a comprehension whose element expression can raise. *)
Fixpoint traverse {A B : Type} (f : A -> result B) (l : list A) : result (list B) :=
  match l with
  | [] => Ok []
  | a :: l' => let* b := f a in let* l'' := traverse f l' in Ok (b :: l'')
  end.

(** [d[k]] on a dictionary: the value or [KeyError]. *)
Definition getitem {V : Type} (d : gmap string V) (k : string) : result V :=
  match d !! k with
  | Some v => Ok v
  | None => Raise (Exception ("KeyError: " ++ k))
  end.

(** [f"{x}"] for [x : str | None]. *)
Definition format_optional (x : option string) : string :=
  match x with
  | Some s => s
  | None => "None"
  end.

Module Table.
Section WithImports.

Variable I : Imports.

(** The 27 constructor calls of [SENSOR_TYPES], in the order of the source;
    the four entries defined above are reused. *)
Definition entries : list (result TomorrowioSensorEntityDescription) :=
  [ __post_init__
      (with_device_class TEMPERATURE
         (with_native_unit (CELSIUS I)
            (description_defaults "feels_like" (TMRW_ATTR_FEELS_LIKE I) "Feels Like")));
    __post_init__
      (with_device_class TEMPERATURE
         (with_native_unit (CELSIUS I)
            (description_defaults "dew_point" (TMRW_ATTR_DEW_POINT I) "Dew Point")));
    __post_init__
      (with_device_class PRESSURE
         (with_native_unit (HPA I)
            (description_defaults "pressure_surface_level"
               (TMRW_ATTR_PRESSURE_SURFACE_LEVEL I) "Pressure (Surface Level)")));
    global_horizontal_irradiance (TMRW_ATTR_SOLAR_GHI I)
      (BTUS_PER_HOUR_SQUARE_FOOT I) (WATTS_PER_SQUARE_METER I);
    __post_init__
      (with_units (MILES I) (KILOMETERS I)
         (Callable (fun val => DistanceConverter_convert I val (KILOMETERS I) (MILES I)))
         (description_defaults "cloud_base" (TMRW_ATTR_CLOUD_BASE I) "Cloud Base"));
    __post_init__
      (with_units (MILES I) (KILOMETERS I)
         (Callable (fun val => DistanceConverter_convert I val (KILOMETERS I) (MILES I)))
         (description_defaults "cloud_ceiling" (TMRW_ATTR_CLOUD_CEILING I) "Cloud Ceiling"));
    __post_init__
      (with_native_unit (PERCENTAGE I)
         (description_defaults "cloud_cover" (TMRW_ATTR_CLOUD_COVER I) "Cloud Cover"));
    __post_init__
      (with_units (MILES_PER_HOUR I) (METERS_PER_SECOND I)
         (Callable (fun val =>
                      SpeedConverter_convert I val (METERS_PER_SECOND I) (MILES_PER_HOUR I)))
         (description_defaults "wind_gust" (TMRW_ATTR_WIND_GUST I) "Wind Gust"));
    precipitation_type (TMRW_ATTR_PRECIPITATION_TYPE I) (PrecipitationType I);
    ozone (TMRW_ATTR_OZONE I) (CONCENTRATION_MICROGRAMS_PER_CUBIC_METER I);
    __post_init__
      (with_device_class PM25
         (with_native_unit (CONCENTRATION_MICROGRAMS_PER_CUBIC_METER I)
            (description_defaults "particulate_matter_2_5_mm"
               (TMRW_ATTR_PARTICULATE_MATTER_25 I) "Particulate Matter < 2.5 μm")));
    __post_init__
      (with_device_class PM10
         (with_native_unit (CONCENTRATION_MICROGRAMS_PER_CUBIC_METER I)
            (description_defaults "particulate_matter_10_mm"
               (TMRW_ATTR_PARTICULATE_MATTER_10 I) "Particulate Matter < 10 μm")));
    __post_init__
      (with_device_class NITROGEN_DIOXIDE
         (with_multiplication_factor (Callable (convert_ppb_to_ugm3 46.01%float))
            (with_native_unit (CONCENTRATION_MICROGRAMS_PER_CUBIC_METER I)
               (description_defaults "nitrogen_dioxide"
                  (TMRW_ATTR_NITROGEN_DIOXIDE I) "Nitrogen Dioxide"))));
    carbon_monoxide (TMRW_ATTR_CARBON_MONOXIDE I) (CONCENTRATION_PARTS_PER_MILLION I);
    __post_init__
      (with_device_class SULPHUR_DIOXIDE
         (with_multiplication_factor (Callable (convert_ppb_to_ugm3 64.07%float))
            (with_native_unit (CONCENTRATION_MICROGRAMS_PER_CUBIC_METER I)
               (description_defaults "sulphur_dioxide"
                  (TMRW_ATTR_SULPHUR_DIOXIDE I) "Sulphur Dioxide"))));
    __post_init__
      (with_device_class AQI
         (description_defaults "us_epa_air_quality_index"
            (TMRW_ATTR_EPA_AQI I) "US EPA Air Quality Index"));
    __post_init__
      (with_value_map (PrimaryPollutantType I)
         (description_defaults "us_epa_primary_pollutant"
            (TMRW_ATTR_EPA_PRIMARY_POLLUTANT I) "US EPA Primary Pollutant"));
    __post_init__
      (with_value_map (HealthConcernType I)
         (description_defaults "us_epa_health_concern"
            (TMRW_ATTR_EPA_HEALTH_CONCERN I) "US EPA Health Concern"));
    __post_init__
      (with_device_class AQI
         (description_defaults "china_mep_air_quality_index"
            (TMRW_ATTR_CHINA_AQI I) "China MEP Air Quality Index"));
    __post_init__
      (with_value_map (PrimaryPollutantType I)
         (description_defaults "china_mep_primary_pollutant"
            (TMRW_ATTR_CHINA_PRIMARY_POLLUTANT I) "China MEP Primary Pollutant"));
    __post_init__
      (with_value_map (HealthConcernType I)
         (description_defaults "china_mep_health_concern"
            (TMRW_ATTR_CHINA_HEALTH_CONCERN I) "China MEP Health Concern"));
    __post_init__
      (with_value_map (PollenIndex I)
         (description_defaults "tree_pollen_index"
            (TMRW_ATTR_POLLEN_TREE I) "Tree Pollen Index"));
    __post_init__
      (with_value_map (PollenIndex I)
         (description_defaults "weed_pollen_index"
            (TMRW_ATTR_POLLEN_WEED I) "Weed Pollen Index"));
    __post_init__
      (with_value_map (PollenIndex I)
         (description_defaults "grass_pollen_index"
            (TMRW_ATTR_POLLEN_GRASS I) "Grass Pollen Index"));
    __post_init__
      (description_defaults "fire_index" (TMRW_ATTR_FIRE_INDEX I) "Fire Index");
    __post_init__
      (description_defaults "uv_index" (TMRW_ATTR_UV_INDEX I) "UV Index");
    __post_init__
      (with_value_map (UVDescription I)
         (description_defaults "uv_radiation_health_concern"
            (TMRW_ATTR_UV_HEALTH_CONCERN I) "UV Radiation Health Concern")) ].

(** The module-level tuple: importing the module evaluates it. *)
Definition SENSOR_TYPES : result (list TomorrowioSensorEntityDescription) :=
  sequence entries.

End WithImports.
End Table.

(** The config entry as the two modules read it. *)
Record ConfigEntry : Type := {
  entry_data : gmap string string;
  unique_id : option string;
  entry_id : string
}.

(** The [_attr_*] attributes [BaseTomorrowioSensorEntity.__init__] assigns;
    [_attr_native_unit_of_measurement] stays unassigned ([None] here) when
    the description names a native unit. *)
Record Attrs : Type := {
  _attr_name : string;
  _attr_unique_id : string;
  _attr_native_unit_of_measurement : option (option string)
}.

Module Setup.
Section WithImports.

Variable I : Imports.

(** [BaseTomorrowioSensorEntity.__init__] (lines 374 to 390): the entity as
    rendering reads it, with the attributes assigned.  [snapshot] is what
    the coordinator passed in currently holds for the entity. *)
Definition __init__ (units : UnitSystem) (config_entry : ConfigEntry)
    (snapshot : gmap string Py.value)
    (description : TomorrowioSensorEntityDescription) : result (Entity * Attrs) :=
  let* conf_name := getitem (entry_data config_entry) (CONF_NAME I) in
  Ok ({| hass_config_units := units;
         entity_description := description;
         current := snapshot |},
      {| _attr_name := conf_name ++ " - " ++ name description;
         _attr_unique_id :=
           format_optional (unique_id config_entry) ++ "_" ++ key description;
         _attr_native_unit_of_measurement :=
           if is_none (native_unit_of_measurement description)
           then Some (if is_us_customary units
                      then unit_imperial description
                      else unit_metric description)
           else None |}).

(** [async_setup_entry] of [sensor.py] (lines 344 to 355): the coordinator
    is looked up under the domain and the entry's API key, and one entity
    is built per description of the table; the result is the list handed
    to [async_add_entities]. *)
Definition async_setup_entry (units : UnitSystem)
    (hass_data : gmap string (gmap string (gmap string Py.value)))
    (config_entry : ConfigEntry) : result (list (Entity * Attrs)) :=
  let* per_domain := getitem hass_data (DOMAIN I) in
  let* api_key := getitem (entry_data config_entry) (CONF_API_KEY I) in
  let* coordinator := getitem per_domain api_key in
  let* table := Table.SENSOR_TYPES I in
  traverse (__init__ units config_entry coordinator) table.

End WithImports.
End Setup.

Module MeteoclimaticSetup.
Section WithHost.

(** Names and host calls [async_setup_entry] uses without defining them. *)
Variables DOMAIN CONF_STATION_CODE : string.
(** [DataUpdateCoordinator(...)]: the coordinator before its first refresh. *)
Variable new_coordinator : Meteoclimatic.Coordinator.
(** [coordinator.async_config_entry_first_refresh()], given what the update
    method gives: the refreshed coordinator, or the exception it raises. *)
Variable async_config_entry_first_refresh :
  Meteoclimatic.Coordinator -> result (gmap string Py.value) ->
  result Meteoclimatic.Coordinator.
Variable weather_at_station : string -> result Meteoclimatic.Observation.

(** [async_setup_entry] (lines 16 to 46) as a function of [hass.data]: the
    dictionary it leaves, and [True] or the exception raised.  The call of
    [async_setup_platforms] is the host's and is left out. *)
Definition async_setup_entry
    (hass_data : gmap string (gmap string Meteoclimatic.Coordinator))
    (entry : ConfigEntry)
    : gmap string (gmap string Meteoclimatic.Coordinator) * result bool :=
  match getitem (entry_data entry) CONF_STATION_CODE with
  | Raise e => (hass_data, Raise e)
  | Ok station_code =>
      match async_config_entry_first_refresh new_coordinator
              (Meteoclimatic.async_update_data station_code weather_at_station) with
      | Raise e => (hass_data, Raise e)
      | Ok coordinator =>
          let per_domain := default ∅ (hass_data !! DOMAIN) in
          (<[DOMAIN := <[entry_id entry := coordinator]> per_domain]> hass_data,
           Ok true)
      end
  end.

End WithHost.
End MeteoclimaticSetup.

(** ** Statement vocabulary and sample inputs *)

(** Exactly one of [unit_imperial] and [unit_metric] is given. *)
Definition exactly_one_unit (self : TomorrowioSensorEntityDescription) : bool :=
  xorb (is_none (unit_imperial self)) (is_none (unit_metric self)).

(** Both numeric conversions are due: no enum decoder, a multiplication
    factor, and an imperial conversion whose test passes. *)
Definition both_conversions_due (units : UnitSystem)
    (desc : TomorrowioSensorEntityDescription) : bool :=
  match value_map desc, multiplication_factor desc, imperial_conversion desc with
  | None, Some _, Some conv => imperial_applies units desc conv
  | _, _, _ => false
  end.

Module Sample.

(** An enum shaped like [pytomorrowio.const.PrecipitationType]. *)
Definition PrecipitationType : Enum.Class :=
  [ {| Enum.name := "NONE"; Enum.value := 0 |};
    {| Enum.name := "RAIN"; Enum.value := 1 |};
    {| Enum.name := "SNOW"; Enum.value := 2 |};
    {| Enum.name := "FREEZING_RAIN"; Enum.value := 3 |};
    {| Enum.name := "ICE_PELLETS"; Enum.value := 4 |} ].

(** Arguments of a constructor call, all optional parts as parameters. *)
Definition description (dc : option SensorDeviceClass)
    (ui um : option string) (factor conv : option Conversion)
    (vm : option Enum.Class) : TomorrowioSensorEntityDescription :=
  {| key := "sample";
     device_class := dc;
     native_unit_of_measurement := None;
     options := None;
     name := "Sample";
     attribute := "sample";
     unit_imperial := ui;
     unit_metric := um;
     multiplication_factor := factor;
     imperial_conversion := conv;
     value_map := vm |}.

Definition km_to_mi : float -> float := fun km => (km / 1.609344)%float.

(** A factor of 2 together with a tripling imperial conversion, mi and km. *)
Definition doubled_then_tripled : TomorrowioSensorEntityDescription :=
  description None (Some "mi") (Some "km")
    (Some (Constant 2%float)) (Some (Constant 3%float)) None.

(** Every optional part configured at once. *)
Definition everything : TomorrowioSensorEntityDescription :=
  description (Some TEMPERATURE) (Some "mi") (Some "km")
    (Some (Constant 2%float)) (Some (Callable km_to_mi)) (Some PrecipitationType).

Definition cloud_base : TomorrowioSensorEntityDescription :=
  description None (Some "mi") (Some "km") None (Some (Callable km_to_mi)) None.

Definition scaled : TomorrowioSensorEntityDescription :=
  description None None None (Some (Constant (1 / 1000)%float)) None None.

Definition entity (units : UnitSystem) (desc : TomorrowioSensorEntityDescription)
    (snapshot : gmap string Py.value) : Entity :=
  {| hass_config_units := units; entity_description := desc; current := snapshot |}.

(** An imperial installation reading 1.0 through [doubled_then_tripled]. *)
Definition imperial_doubled_then_tripled : Entity :=
  entity US_CUSTOMARY_SYSTEM doubled_then_tripled {[ "sample" := VNum (NFloat 1%float) ]}.

End Sample.

Module SampleSetup.

(** Sample values for the imported names, for evaluating the table and the
    setup functions on closed inputs. *)
Definition imports : Imports :=
  {| DOMAIN := "tomorrowio";
     CONF_API_KEY := "api_key";
     CONF_NAME := "name";
     TMRW_ATTR_CARBON_MONOXIDE := "pollutantCO";
     TMRW_ATTR_CHINA_AQI := "mepIndex";
     TMRW_ATTR_CHINA_HEALTH_CONCERN := "mepHealthConcern";
     TMRW_ATTR_CHINA_PRIMARY_POLLUTANT := "mepPrimaryPollutant";
     TMRW_ATTR_CLOUD_BASE := "cloudBase";
     TMRW_ATTR_CLOUD_CEILING := "cloudCeiling";
     TMRW_ATTR_CLOUD_COVER := "cloudCover";
     TMRW_ATTR_DEW_POINT := "dewPoint";
     TMRW_ATTR_EPA_AQI := "epaIndex";
     TMRW_ATTR_EPA_HEALTH_CONCERN := "epaHealthConcern";
     TMRW_ATTR_EPA_PRIMARY_POLLUTANT := "epaPrimaryPollutant";
     TMRW_ATTR_FEELS_LIKE := "temperatureApparent";
     TMRW_ATTR_FIRE_INDEX := "fireIndex";
     TMRW_ATTR_NITROGEN_DIOXIDE := "pollutantNO2";
     TMRW_ATTR_OZONE := "pollutantO3";
     TMRW_ATTR_PARTICULATE_MATTER_10 := "particulateMatter10";
     TMRW_ATTR_PARTICULATE_MATTER_25 := "particulateMatter25";
     TMRW_ATTR_POLLEN_GRASS := "grassIndex";
     TMRW_ATTR_POLLEN_TREE := "treeIndex";
     TMRW_ATTR_POLLEN_WEED := "weedIndex";
     TMRW_ATTR_PRECIPITATION_TYPE := "precipitationType";
     TMRW_ATTR_PRESSURE_SURFACE_LEVEL := "pressureSurfaceLevel";
     TMRW_ATTR_SOLAR_GHI := "solarGHI";
     TMRW_ATTR_SULPHUR_DIOXIDE := "pollutantSO2";
     TMRW_ATTR_UV_HEALTH_CONCERN := "uvHealthConcern";
     TMRW_ATTR_UV_INDEX := "uvIndex";
     TMRW_ATTR_WIND_GUST := "windGust";
     CONCENTRATION_MICROGRAMS_PER_CUBIC_METER := "ug/m3";
     CONCENTRATION_PARTS_PER_MILLION := "ppm";
     PERCENTAGE := "%";
     BTUS_PER_HOUR_SQUARE_FOOT := "BTU/(h*ft2)";
     WATTS_PER_SQUARE_METER := "W/m2";
     KILOMETERS := "km";
     MILES := "mi";
     HPA := "hPa";
     METERS_PER_SECOND := "m/s";
     MILES_PER_HOUR := "mph";
     CELSIUS := "C";
     HealthConcernType :=
       [ {| Enum.name := "GOOD"; Enum.value := 0 |};
         {| Enum.name := "MODERATE"; Enum.value := 1 |} ];
     PollenIndex :=
       [ {| Enum.name := "NONE"; Enum.value := 0 |};
         {| Enum.name := "VERY_LOW"; Enum.value := 1 |} ];
     PrecipitationType := Sample.PrecipitationType;
     PrimaryPollutantType :=
       [ {| Enum.name := "PM25"; Enum.value := 0 |};
         {| Enum.name := "PM10"; Enum.value := 1 |} ];
     UVDescription :=
       [ {| Enum.name := "LOW"; Enum.value := 1 |};
         {| Enum.name := "MODERATE"; Enum.value := 2 |} ];
     DistanceConverter_convert := fun val _ _ => Sample.km_to_mi val;
     SpeedConverter_convert := fun val _ _ => (val * 2.2369362920544)%float |}.

Definition config_entry : ConfigEntry :=
  {| entry_data := {[ "name" := "Home"; "api_key" := "k3y" ]};
     unique_id := Some "k3y_52.5_13.4";
     entry_id := "0123456789abcdef" |}.

Definition snapshot : gmap string Py.value :=
  {[ "pollutantO3" := VNum (NInt 100); "precipitationType" := VNum (NInt 1) ]}.

Definition hass_data : gmap string (gmap string (gmap string Py.value)) :=
  {[ "tomorrowio" := {[ "k3y" := snapshot ]} ]}.

(** [weatherCode]-like descriptions for single entities. *)
Definition plain : TomorrowioSensorEntityDescription :=
  description_defaults "fire_index" "fireIndex" "Fire Index".

Definition zero_conversion : TomorrowioSensorEntityDescription :=
  with_units "mi" "km" (Constant 0%float) (description_defaults "sample" "sample" "Sample").

(** The ozone entry of the table as [__post_init__] leaves it, and an
    entity reading 100 through it. *)
Definition ozone_description : TomorrowioSensorEntityDescription :=
  {| key := "ozone";
     device_class := Some OZONE;
     native_unit_of_measurement := Some "ug/m3";
     options := None;
     name := "Ozone";
     attribute := "pollutantO3";
     unit_imperial := None;
     unit_metric := None;
     multiplication_factor := Some (Callable (convert_ppb_to_ugm3 48%float));
     imperial_conversion := None;
     value_map := None |}.

Definition ozone_entity : Entity :=
  Sample.entity US_CUSTOMARY_SYSTEM ozone_description snapshot.

(** A Meteoclimatic entry, a coordinator before its first refresh, a first
    refresh that fails fast, and two clients. *)
Definition meteo_entry : ConfigEntry :=
  {| entry_data := {[ "station_code" := "ESCAT4300000043206B" ]};
     unique_id := Some "ESCAT4300000043206B";
     entry_id := "fedcba9876543210" |}.

Definition fresh_coordinator : Meteoclimatic.Coordinator :=
  {| Meteoclimatic.data := None;
     Meteoclimatic.last_update_success := true;
     Meteoclimatic.last_exception := None |}.

Definition first_refresh (c : Meteoclimatic.Coordinator)
    (outcome : result (gmap string Py.value)) : result Meteoclimatic.Coordinator :=
  match outcome with
  | Ok _ => Ok (Meteoclimatic.refresh outcome c)
  | Raise e => Raise (Exception "ConfigEntryNotReady")
  end.

Definition station_down : string -> result Meteoclimatic.Observation :=
  fun _ => Raise (MeteoclimaticError "station not found").

Definition station_up : string -> result Meteoclimatic.Observation :=
  fun _ => Ok {| Meteoclimatic.__dict__ := {[ "temp_current" := VNum (NFloat 21.5%float) ]} |}.

Definition other_entry_stored : gmap string (gmap string Meteoclimatic.Coordinator) :=
  {[ "meteoclimatic" := {[ "0000000000000000" := fresh_coordinator ]} ]}.

(** A raw [int] beyond the float range, read through a factor. *)
Definition overflowing : Entity :=
  Sample.entity METRIC_SYSTEM Sample.scaled {[ "sample" := VNum (NInt (10 ^ 400)) ]}.

End SampleSetup.

(** * Properties *)

(** ** The Python runtime model on known values *)

Example round_2675 : Py.round 2.675%float 2 = 2.67%float.
Proof. vm_compute. reflexivity. Qed.
Example round_tie_even : Py.round 0.125%float 2 = 0.12%float.
Proof. vm_compute. reflexivity. Qed.
Example round_tie_even_up : Py.round 0.375%float 2 = 0.38%float.
Proof. vm_compute. reflexivity. Qed.
Example round_big : Py.round 1e300%float 2 = 1e300%float.
Proof. vm_compute. reflexivity. Qed.
Example round_neg_small : Py.round (-0.001)%float 2 = (-0.0)%float.
Proof. vm_compute. reflexivity. Qed.
Example round_inf : Py.round infinity 2 = infinity.
Proof. vm_compute. reflexivity. Qed.
Example float_of_int_100 : float_of_int 100 = Ok 100%float.
Proof. vm_compute. reflexivity. Qed.
Example float_of_int_2_53_1 : float_of_int (2 ^ 53 + 1) = Ok 9007199254740992%float.
Proof. vm_compute. reflexivity. Qed.
Example float_of_int_huge : float_of_int (10 ^ 400) = Raise (OverflowError "int too large to convert to float").
Proof. vm_compute. reflexivity. Qed.
Example lower_rain : lower "FREEZING_RAIN" = "freezing_rain".
Proof. reflexivity. Qed.
Example as_int_float : as_int (NFloat 3%float) = Some 3 /\ as_int (NFloat 2.5%float) = None.
Proof. vm_compute. split; reflexivity. Qed.

(** ** Construction of a description *)

(** C2: constructing a description with exactly one of the metric and the
    imperial unit set raises the validation error ([ValueError]); with both
    set, or with both unset, construction succeeds and returns a
    description. *)
Theorem post_init_units_validation (self : TomorrowioSensorEntityDescription) :
  (exactly_one_unit self = true ->
     __post_init__ self = Raise (ValueError units_error))
  /\ (exactly_one_unit self = false -> exists d, __post_init__ self = Ok d).
Proof.
  unfold exactly_one_unit, __post_init__.
  destruct (unit_imperial self) as [ui|], (unit_metric self) as [um|]; simpl;
    split; intros H; try discriminate H; try reflexivity;
    destruct (value_map self); eauto.
Qed.

Example post_init_only_imperial :
  __post_init__ (Sample.description None (Some "mi") None None None None)
  = Raise (ValueError units_error).
Proof. reflexivity. Qed.

Example post_init_only_metric :
  __post_init__ (Sample.description None None (Some "km") None None None)
  = Raise (ValueError units_error).
Proof. reflexivity. Qed.

Example post_init_both_units :
  __post_init__ Sample.cloud_base = Ok Sample.cloud_base.
Proof. reflexivity. Qed.

Example post_init_no_units :
  __post_init__ Sample.scaled = Ok Sample.scaled.
Proof. reflexivity. Qed.

(** C10: a description constructed with a [value_map] has device class
    [ENUM] and, as options, the lower-cased names of the enum's members in
    definition order, whatever device class and options the caller gave. *)
Theorem post_init_enum_fields (self d : TomorrowioSensorEntityDescription)
    (vm : Enum.Class) :
  value_map self = Some vm ->
  __post_init__ self = Ok d ->
  device_class d = Some ENUM
  /\ options d = Some (List.map (fun item => lower (Enum.name item)) vm).
Proof.
  intros Hvm. unfold __post_init__. rewrite Hvm.
  destruct (_ || _); [discriminate|].
  intros [= <-]. split; reflexivity.
Qed.

Lemma post_init_enum_fields_witness :
  exists d,
    __post_init__ Sample.everything = Ok d
    /\ device_class Sample.everything = Some TEMPERATURE
    /\ device_class d = Some ENUM
    /\ options d = Some ["none"; "rain"; "snow"; "freezing_rain"; "ice_pellets"].
Proof.
  eexists. split; [reflexivity|]. split; [reflexivity|].
  exact (post_init_enum_fields Sample.everything _ Sample.PrecipitationType
           eq_refl eq_refl).
Defined.

(** ** Rendering: absent fields, strings and enum decoding *)

Import BaseTomorrowioSensorEntity.

(** C8: when the description's field is absent from the current snapshot,
    the raw state is [None] and rendering returns [None] (the unknown state):
    no decoder or conversion is applied and nothing is raised, whatever the
    description configures. *)
Theorem absent_field_renders_none (self : Entity) :
  current self !! attribute (entity_description self) = None ->
  TomorrowioSensorEntity._state self = Ok None
  /\ TomorrowioSensorEntity.native_value self = Ok VNone.
Proof.
  intros Habsent.
  assert (Hstate : TomorrowioSensorEntity._state self = Ok None).
  { unfold TomorrowioSensorEntity._state, _get_current_property.
    rewrite Habsent. reflexivity. }
  split; [exact Hstate|].
  unfold TomorrowioSensorEntity.native_value, native_value.
  rewrite Hstate. reflexivity.
Qed.

Lemma absent_field_renders_none_witness :
  TomorrowioSensorEntity._state
    (Sample.entity US_CUSTOMARY_SYSTEM Sample.everything
       {[ "other" := VNum (NInt 1) ]}) = Ok None
  /\ TomorrowioSensorEntity.native_value
       (Sample.entity US_CUSTOMARY_SYSTEM Sample.everything
          {[ "other" := VNum (NInt 1) ]}) = Ok VNone.
Proof.
  apply (absent_field_renders_none
           (Sample.entity US_CUSTOMARY_SYSTEM Sample.everything
              {[ "other" := VNum (NInt 1) ]})).
  vm_compute. reflexivity.
Defined.

(** A field stored as [None] renders like an absent one. *)
Lemma none_field_renders_none (self : Entity) :
  current self !! attribute (entity_description self) = Some VNone ->
  TomorrowioSensorEntity.native_value self = Ok VNone.
Proof.
  intros Hnone.
  unfold TomorrowioSensorEntity.native_value, native_value,
    TomorrowioSensorEntity._state, _get_current_property.
  rewrite Hnone. reflexivity.
Qed.

(** C9: the raw state extraction asserts that the snapshot value is not a
    string: when the snapshot holds a string for the description's field,
    [_state] and with it rendering raise [AssertionError] instead of
    returning a value. *)
Theorem string_field_fails_assertion (self : Entity) (s : string) :
  current self !! attribute (entity_description self) = Some (VStr s) ->
  TomorrowioSensorEntity._state self = Raise AssertionError
  /\ TomorrowioSensorEntity.native_value self = Raise AssertionError.
Proof.
  intros Hstr.
  assert (Hstate : TomorrowioSensorEntity._state self = Raise AssertionError).
  { unfold TomorrowioSensorEntity._state, _get_current_property.
    rewrite Hstr. reflexivity. }
  split; [exact Hstate|].
  unfold TomorrowioSensorEntity.native_value, native_value.
  rewrite Hstate. reflexivity.
Qed.

Lemma string_field_fails_assertion_witness :
  TomorrowioSensorEntity._state
    (Sample.entity METRIC_SYSTEM Sample.scaled {[ "sample" := VStr "12.5" ]})
  = Raise AssertionError
  /\ TomorrowioSensorEntity.native_value
       (Sample.entity METRIC_SYSTEM Sample.scaled {[ "sample" := VStr "12.5" ]})
     = Raise AssertionError.
Proof.
  apply (string_field_fails_assertion
           (Sample.entity METRIC_SYSTEM Sample.scaled {[ "sample" := VStr "12.5" ]})
           "12.5").
  vm_compute. reflexivity.
Defined.

(** A successful enum call returns a member of the class, the one whose
    value the raw number equals. *)
Lemma enum_call_member (cls : Enum.Class) (n : num) (m : Enum.Member) :
  Enum.call cls n = Ok m -> In m cls /\ as_int n = Some (Enum.value m).
Proof.
  unfold Enum.call. destruct (as_int n) as [z|]; [|discriminate].
  destruct (find _ cls) as [m'|] eqn:Hfind; [|discriminate].
  intros [= ->]. apply find_some in Hfind as [Hin Hval].
  split; [exact Hin|]. apply Z.eqb_eq in Hval. congruence.
Qed.

Section Rendering.

Variable _state : Entity -> result (option num).

(** C3: for a description with an enum decoder and a raw value in the
    decoder's domain, rendering returns the lower-cased name of the
    decoded member, a string and never a number, whatever multiplication
    factor, imperial conversion and units the description has and whatever
    the active unit system is. *)
Theorem enum_decoder_takes_precedence (self : Entity) (vm : Enum.Class)
    (n : num) (m : Enum.Member) :
  value_map (entity_description self) = Some vm ->
  _state self = Ok (Some n) ->
  Enum.call vm n = Ok m ->
  native_value _state self = Ok (VStr (lower (Enum.name m)))
  /\ In m vm.
Proof.
  intros Hvm Hstate Hcall. split.
  - unfold native_value. rewrite Hstate. simpl. rewrite Hvm, Hcall. reflexivity.
  - apply (enum_call_member vm n m Hcall).
Qed.

End Rendering.

Lemma enum_decoder_takes_precedence_witness :
  TomorrowioSensorEntity.native_value
    (Sample.entity US_CUSTOMARY_SYSTEM Sample.everything
       {[ "sample" := VNum (NInt 3) ]}) = Ok (VStr "freezing_rain")
  /\ In {| Enum.name := "FREEZING_RAIN"; Enum.value := 3 |} Sample.PrecipitationType.
Proof.
  apply (enum_decoder_takes_precedence TomorrowioSensorEntity._state
           (Sample.entity US_CUSTOMARY_SYSTEM Sample.everything
              {[ "sample" := VNum (NInt 3) ]})
           Sample.PrecipitationType (NInt 3)
           {| Enum.name := "FREEZING_RAIN"; Enum.value := 3 |});
    vm_compute; reflexivity.
Defined.

Example enum_decoder_float_state :
  TomorrowioSensorEntity.native_value
    (Sample.entity METRIC_SYSTEM Sample.everything
       {[ "sample" := VNum (NFloat 1%float) ]}) = Ok (VStr "rain").
Proof. vm_compute. reflexivity. Qed.

Example enum_decoder_outside_domain :
  TomorrowioSensorEntity.native_value
    (Sample.entity METRIC_SYSTEM Sample.everything
       {[ "sample" := VNum (NInt 9) ]})
  = Raise (ValueError "not a valid member value").
Proof. vm_compute. reflexivity. Qed.

(** ** Rendering: numeric conversions *)

Section NumericRendering.

Variable _state : Entity -> result (option num).

(** Without an enum decoder, rendering a number is the multiplication
    step followed by the imperial step. *)
Lemma native_value_numeric (self : Entity) (n : num) :
  value_map (entity_description self) = None ->
  _state self = Ok (Some n) ->
  native_value _state self
  = let* s := after_multiplication (entity_description self) n in
    match imperial_conversion (entity_description self) with
    | Some conv =>
        if imperial_applies (hass_config_units self) (entity_description self) conv
        then let* x := handle_conversion s conv in Ok (VNum (NFloat x))
        else Ok (VNum s)
    | None => Ok (VNum s)
    end.
Proof.
  intros Hvm Hstate. unfold native_value, after_multiplication, imperial_applies.
  rewrite Hstate. simpl. rewrite Hvm. reflexivity.
Qed.

(** C4: for a description whose only configured transformation is a
    multiplication factor, rendering a number [raw] returns
    [round(raw * factor, 2)] for a constant factor and [round(f(raw), 2)]
    for a function [f]; an [int] enters the product as [float(raw)], and
    overflows there as [raw * factor] does. *)
Theorem only_factor_renders_rounded_product (self : Entity)
    (factor : Conversion) (n : num) :
  value_map (entity_description self) = None ->
  imperial_conversion (entity_description self) = None ->
  multiplication_factor (entity_description self) = Some factor ->
  _state self = Ok (Some n) ->
  native_value _state self
  = let* raw := to_float n in
    Ok (VNum (NFloat (Py.round
                        match factor with
                        | Constant c => (raw * c)%float
                        | Callable f => f raw
                        end 2))).
Proof.
  intros Hvm Hconv Hfactor Hstate.
  rewrite (native_value_numeric self n Hvm Hstate).
  unfold after_multiplication. rewrite Hfactor, Hconv.
  destruct factor; simpl; destruct (to_float n); reflexivity.
Qed.

(** C5: for a description with differing metric and imperial units and an
    imperial conversion function [f] (and no enum decoder), rendering a
    number applies [f] and rounds to 2 places when the unit system is
    imperial, and returns the state unconverted when it is metric; the
    state is the one the multiplication step leaves, the raw number when
    no factor is configured. *)
Theorem imperial_conversion_by_unit_system (self : Entity)
    (ui um : string) (f : float -> float) (n : num) :
  unit_imperial (entity_description self) = Some ui ->
  unit_metric (entity_description self) = Some um ->
  ui <> um ->
  imperial_conversion (entity_description self) = Some (Callable f) ->
  value_map (entity_description self) = None ->
  _state self = Ok (Some n) ->
  native_value _state self
  = let* s := after_multiplication (entity_description self) n in
    match hass_config_units self with
    | US_CUSTOMARY_SYSTEM =>
        let* x := to_float s in Ok (VNum (NFloat (Py.round (f x) 2)))
    | METRIC_SYSTEM => Ok (VNum s)
    end.
Proof.
  intros Hui Hum Hne Hconv Hvm Hstate.
  rewrite (native_value_numeric self n Hvm Hstate).
  rewrite Hconv. unfold imperial_applies. rewrite Hui, Hum. simpl.
  rewrite bool_decide_eq_false_2 by congruence. simpl.
  destruct (after_multiplication (entity_description self) n) as [s|e];
    [|reflexivity].
  simpl. destruct (hass_config_units self); simpl; [reflexivity|].
  destruct (to_float s); reflexivity.
Qed.

(** C1, as the code has it: the two numeric steps are consecutive, not
    alternatives.  Rendering agrees with the exclusive chain of the
    specification except when both conversions are due; then the
    multiplication factor is applied first and the imperial conversion is
    applied to its rounded result, so both are applied to one raw value. *)
Theorem numeric_steps_are_sequential (self : Entity) (raw : option num) :
  _state self = Ok raw ->
  (both_conversions_due (hass_config_units self) (entity_description self) = false ->
     native_value _state self
     = rendering_else_chain (hass_config_units self) (entity_description self) raw)
  /\ (forall n factor conv,
        raw = Some n ->
        value_map (entity_description self) = None ->
        multiplication_factor (entity_description self) = Some factor ->
        imperial_conversion (entity_description self) = Some conv ->
        imperial_applies (hass_config_units self) (entity_description self) conv = true ->
        native_value _state self
        = let* x := handle_conversion n factor in
          let* y := handle_conversion (NFloat x) conv in
          Ok (VNum (NFloat y))).
Proof.
  intros Hstate. split.
  - unfold both_conversions_due, rendering_else_chain, native_value.
    rewrite Hstate. simpl. destruct raw as [n|]; [|reflexivity].
    unfold imperial_applies.
    destruct (value_map (entity_description self)); [reflexivity|].
    destruct (multiplication_factor (entity_description self)) as [factor|];
      destruct (imperial_conversion (entity_description self)) as [conv|];
      simpl; intros Hdue; try reflexivity.
    + rewrite Hdue. destruct (handle_conversion n factor); reflexivity.
    + destruct (handle_conversion n factor); reflexivity.
  - intros n factor conv -> Hvm Hfactor Hconv Happlies.
    rewrite (native_value_numeric self n Hvm Hstate).
    unfold after_multiplication. rewrite Hfactor, Hconv, Happlies.
    destruct (handle_conversion n factor); reflexivity.
Qed.

End NumericRendering.

Lemma only_factor_renders_rounded_product_witness :
  TomorrowioSensorEntity.native_value
    (Sample.entity US_CUSTOMARY_SYSTEM Sample.scaled {[ "sample" := VNum (NInt 1500) ]})
  = Ok (VNum (NFloat 1.5%float)).
Proof.
  refine (eq_trans
            (only_factor_renders_rounded_product TomorrowioSensorEntity._state
               (Sample.entity US_CUSTOMARY_SYSTEM Sample.scaled
                  {[ "sample" := VNum (NInt 1500) ]})
               (Constant (1 / 1000)%float) (NInt 1500) _ _ _ _) _);
    vm_compute; reflexivity.
Defined.

Example only_factor_function :
  TomorrowioSensorEntity.native_value
    (Sample.entity METRIC_SYSTEM
       (Sample.description None None None
          (Some (Callable (convert_ppb_to_ugm3 46.01%float))) None None)
       {[ "sample" := VNum (NFloat 10%float) ]})
  = Ok (VNum (NFloat 18.82%float)).
Proof. vm_compute. reflexivity. Qed.

Lemma imperial_conversion_by_unit_system_witness :
  TomorrowioSensorEntity.native_value
    (Sample.entity US_CUSTOMARY_SYSTEM Sample.cloud_base
       {[ "sample" := VNum (NFloat 10%float) ]})
  = Ok (VNum (NFloat 6.21%float))
  /\ TomorrowioSensorEntity.native_value
       (Sample.entity METRIC_SYSTEM Sample.cloud_base
          {[ "sample" := VNum (NFloat 10%float) ]})
     = Ok (VNum (NFloat 10%float)).
Proof.
  split.
  - refine (eq_trans
              (imperial_conversion_by_unit_system TomorrowioSensorEntity._state
                 (Sample.entity US_CUSTOMARY_SYSTEM Sample.cloud_base
                    {[ "sample" := VNum (NFloat 10%float) ]})
                 "mi" "km" Sample.km_to_mi (NFloat 10%float) _ _ _ _ _ _) _);
      try (vm_compute; reflexivity).
    discriminate.
  - refine (eq_trans
              (imperial_conversion_by_unit_system TomorrowioSensorEntity._state
                 (Sample.entity METRIC_SYSTEM Sample.cloud_base
                    {[ "sample" := VNum (NFloat 10%float) ]})
                 "mi" "km" Sample.km_to_mi (NFloat 10%float) _ _ _ _ _ _) _);
      try (vm_compute; reflexivity).
    discriminate.
Defined.

(** C1, as stated, fails: with a factor of 2 and a tripling imperial
    conversion both configured, an imperial installation renders the raw
    value 1.0 as 6.0, both conversions applied, where the exclusive chain
    stops after the multiplication at 2.0. *)
Lemma else_chain_counterexample :
  TomorrowioSensorEntity.native_value Sample.imperial_doubled_then_tripled
  = Ok (VNum (NFloat 6%float))
  /\ rendering_else_chain US_CUSTOMARY_SYSTEM Sample.doubled_then_tripled
       (Some (NFloat 1%float))
     = Ok (VNum (NFloat 2%float))
  /\ TomorrowioSensorEntity.native_value Sample.imperial_doubled_then_tripled
     <> rendering_else_chain US_CUSTOMARY_SYSTEM Sample.doubled_then_tripled
          (Some (NFloat 1%float)).
Proof.
  assert (H6 : TomorrowioSensorEntity.native_value Sample.imperial_doubled_then_tripled
               = Ok (VNum (NFloat 6%float))) by (vm_compute; reflexivity).
  assert (H2 : rendering_else_chain US_CUSTOMARY_SYSTEM Sample.doubled_then_tripled
                 (Some (NFloat 1%float))
               = Ok (VNum (NFloat 2%float))) by (vm_compute; reflexivity).
  split; [exact H6|]. split; [exact H2|].
  rewrite H6, H2. intros Heq.
  apply (f_equal (fun r => match r with
                           | Ok (VNum (NFloat x)) => Prim2SF x
                           | _ => S754_nan
                           end)) in Heq.
  vm_compute in Heq. discriminate Heq.
Qed.

Lemma numeric_steps_are_sequential_witness :
  TomorrowioSensorEntity.native_value Sample.imperial_doubled_then_tripled
  = Ok (VNum (NFloat 6%float)).
Proof.
  refine (eq_trans
            (proj2 (numeric_steps_are_sequential TomorrowioSensorEntity._state
                      Sample.imperial_doubled_then_tripled (Some (NFloat 1%float)) _)
               (NFloat 1%float) (Constant 2%float) (Constant 3%float) _ _ _ _ _) _);
    vm_compute; reflexivity.
Defined.

Example one_conversion_agrees_with_chain :
  both_conversions_due METRIC_SYSTEM Sample.doubled_then_tripled = false
  /\ TomorrowioSensorEntity.native_value
       (Sample.entity METRIC_SYSTEM Sample.doubled_then_tripled
          {[ "sample" := VNum (NFloat 1%float) ]})
     = Ok (VNum (NFloat 2%float)).
Proof. split; vm_compute; reflexivity. Qed.

(** ** The ozone entry of the table *)

Lemma ozone_state (attr unit : string) (units : UnitSystem)
    (d : TomorrowioSensorEntityDescription) (snapshot : gmap string Py.value)
    (n : num) :
  ozone attr unit = Ok d ->
  TomorrowioSensorEntity._state
    {| hass_config_units := units; entity_description := d;
       current := <[attr := VNum n]> snapshot |} = Ok (Some n).
Proof.
  intros [= <-]. unfold TomorrowioSensorEntity._state, _get_current_property.
  simpl. rewrite lookup_insert_eq. reflexivity.
Qed.

(** C6: the ozone description is constructed with the ppb to ug/m^3
    conversion for molecular weight 48 as its multiplication factor, and
    rendering the raw value 100 (as [int] or as [float], in either unit
    system) returns [round(100 * 48 / 24.45, 2)], which is 196.32. *)
Theorem ozone_renders_100 (attr unit : string) (units : UnitSystem)
    (snapshot : gmap string Py.value) :
  exists d,
    ozone attr unit = Ok d
    /\ TomorrowioSensorEntity.native_value
         {| hass_config_units := units; entity_description := d;
            current := <[attr := VNum (NInt 100)]> snapshot |}
       = Ok (VNum (NFloat (Py.round ((100 * 48) / 24.45)%float 2)))
    /\ TomorrowioSensorEntity.native_value
         {| hass_config_units := units; entity_description := d;
            current := <[attr := VNum (NFloat 100%float)]> snapshot |}
       = Ok (VNum (NFloat (Py.round ((100 * 48) / 24.45)%float 2)))
    /\ Py.round ((100 * 48) / 24.45)%float 2 = 196.32%float.
Proof.
  eexists. split; [reflexivity|].
  split; [|split].
  - unfold TomorrowioSensorEntity.native_value, native_value.
    rewrite (ozone_state attr unit units _ snapshot (NInt 100) eq_refl).
    vm_compute. reflexivity.
  - unfold TomorrowioSensorEntity.native_value, native_value.
    rewrite (ozone_state attr unit units _ snapshot (NFloat 100%float) eq_refl).
    vm_compute. reflexivity.
  - vm_compute. reflexivity.
Qed.

(** ** The Meteoclimatic polling adapter *)

(** C7: when the fetch of a poll raises the provider's error, the update
    method raises [UpdateFailed] with the provider's error as its cause; it
    neither returns a snapshot nor lets the provider's error through, and a
    coordinator tick on that outcome keeps the stored snapshot and marks the
    update as failed. *)
Theorem provider_error_becomes_update_failed (station_code : string)
    (weather_at_station : string -> result Meteoclimatic.Observation)
    (msg : string) (c : Meteoclimatic.Coordinator) :
  weather_at_station station_code = Raise (MeteoclimaticError msg) ->
  Meteoclimatic.async_update_data station_code weather_at_station
  = Raise (UpdateFailed ("Error while retrieving data: " ++ msg)
             (Some (MeteoclimaticError msg)))
  /\ (forall snapshot,
        Meteoclimatic.async_update_data station_code weather_at_station
        <> Ok snapshot)
  /\ Meteoclimatic.async_update_data station_code weather_at_station
     <> Raise (MeteoclimaticError msg)
  /\ Meteoclimatic.data
       (Meteoclimatic.refresh
          (Meteoclimatic.async_update_data station_code weather_at_station) c)
     = Meteoclimatic.data c
  /\ Meteoclimatic.last_update_success
       (Meteoclimatic.refresh
          (Meteoclimatic.async_update_data station_code weather_at_station) c)
     = false.
Proof.
  intros Hfetch. unfold Meteoclimatic.async_update_data. rewrite Hfetch.
  repeat split; try discriminate.
Qed.

Lemma provider_error_becomes_update_failed_witness :
  Meteoclimatic.async_update_data "ESCAT4300000043206B"
    (fun _ => Raise (MeteoclimaticError "station not found"))
  = Raise (UpdateFailed "Error while retrieving data: station not found"
             (Some (MeteoclimaticError "station not found")))
  /\ Meteoclimatic.data
       (Meteoclimatic.refresh
          (Meteoclimatic.async_update_data "ESCAT4300000043206B"
             (fun _ => Raise (MeteoclimaticError "station not found")))
          {| Meteoclimatic.data := Some {[ "temp_current" := VNum (NFloat 21.5%float) ]};
             Meteoclimatic.last_update_success := true;
             Meteoclimatic.last_exception := None |})
     = Some {[ "temp_current" := VNum (NFloat 21.5%float) ]}.
Proof.
  destruct (provider_error_becomes_update_failed "ESCAT4300000043206B"
              (fun _ => Raise (MeteoclimaticError "station not found"))
              "station not found"
              {| Meteoclimatic.data := Some {[ "temp_current" := VNum (NFloat 21.5%float) ]};
                 Meteoclimatic.last_update_success := true;
                 Meteoclimatic.last_exception := None |}
              eq_refl) as (Hraise & _ & _ & Hdata & _).
  split; [exact Hraise | exact Hdata].
Defined.

Example successful_poll_replaces_snapshot (c : Meteoclimatic.Coordinator) :
  Meteoclimatic.refresh
    (Meteoclimatic.async_update_data "ESCAT4300000043206B"
       (fun _ => Ok {| Meteoclimatic.__dict__ := {[ "temp_current" := VNum (NFloat 21.5%float) ]} |}))
    c
  = {| Meteoclimatic.data := Some {[ "temp_current" := VNum (NFloat 21.5%float) ]};
       Meteoclimatic.last_update_success := true;
       Meteoclimatic.last_exception := None |}.
Proof. reflexivity. Qed.

Example other_errors_pass_through :
  Meteoclimatic.async_update_data "ESCAT4300000043206B"
    (fun _ => Raise (Exception "connection reset"))
  = Raise (Exception "connection reset").
Proof. reflexivity. Qed.

(** * Further properties of the code *)

(** ** [__post_init__] *)

(** [__post_init__] changes nothing but [device_class] and [options], and
    changes nothing at all when no [value_map] is given. *)
Theorem post_init_keeps_fields (self d : TomorrowioSensorEntityDescription) :
  __post_init__ self = Ok d ->
  key d = key self
  /\ name d = name self
  /\ attribute d = attribute self
  /\ native_unit_of_measurement d = native_unit_of_measurement self
  /\ unit_imperial d = unit_imperial self
  /\ unit_metric d = unit_metric self
  /\ multiplication_factor d = multiplication_factor self
  /\ imperial_conversion d = imperial_conversion self
  /\ value_map d = value_map self
  /\ (value_map self = None -> d = self).
Proof.
  unfold __post_init__. destruct (_ || _); [discriminate|].
  destruct (value_map self) as [vm|] eqn:Hvm; intros [= <-]; simpl;
    rewrite ?Hvm; repeat split; congruence.
Qed.

Lemma post_init_keeps_fields_witness :
  exists d,
    __post_init__ Sample.everything = Ok d
    /\ key d = "sample"
    /\ unit_imperial d = Some "mi"
    /\ value_map d = Some Sample.PrecipitationType.
Proof.
  eexists. split; [reflexivity|].
  destruct (post_init_keeps_fields Sample.everything _ eq_refl)
    as (Hkey & _ & _ & _ & Hui & _ & _ & _ & Hvm & _).
  split; [exact Hkey|]. split; [exact Hui | exact Hvm].
Defined.

Lemma post_init_value_map (self d : TomorrowioSensorEntityDescription) :
  __post_init__ self = Ok d -> value_map d = value_map self.
Proof.
  unfold __post_init__. destruct (_ || _); [discriminate|].
  destruct (value_map self) eqn:Hvm; intros [= <-]; simpl; congruence.
Qed.

(** A validated description has both units or neither. *)
Lemma post_init_units_agree (self d : TomorrowioSensorEntityDescription) :
  __post_init__ self = Ok d ->
  is_none (unit_imperial d) = is_none (unit_metric d).
Proof.
  unfold __post_init__.
  destruct (unit_imperial self) as [ui|] eqn:Hui,
           (unit_metric self) as [um|] eqn:Hum; simpl; try discriminate;
    destruct (value_map self); intros [= <-]; simpl; rewrite ?Hui, ?Hum;
    reflexivity.
Qed.

(** ** Rendering *)

Lemma to_float_raises (n : num) (e : exn) :
  to_float n = Raise e ->
  exists z msg, n = NInt z /\ e = OverflowError msg.
Proof.
  destruct n as [z|x]; simpl; [|discriminate].
  unfold float_of_int.
  destruct (binary_normalize prec emax z 0 false); intros [= <-]; eauto.
Qed.

Lemma handle_conversion_raises (n : num) (conversion : Conversion) (e : exn) :
  handle_conversion n conversion = Raise e ->
  exists z msg, n = NInt z /\ e = OverflowError msg.
Proof.
  unfold handle_conversion.
  destruct conversion; destruct (to_float n) eqn:Hfloat; simpl;
    try discriminate; intros [= <-]; eapply to_float_raises; eassumption.
Qed.

Lemma handle_conversion_float (x : float) (conversion : Conversion) :
  exists y, handle_conversion (NFloat x) conversion = Ok y.
Proof. destruct conversion; simpl; eauto. Qed.

Lemma enum_call_raises (cls : Enum.Class) (n : num) (e : exn) :
  Enum.call cls n = Raise e -> exists msg, e = ValueError msg.
Proof.
  unfold Enum.call. destruct (as_int n); [destruct (find _ cls)|];
    try discriminate; intros [= <-]; eauto.
Qed.

Section MoreRendering.

Variable _state : Entity -> result (option num).

(** Rendering returns a string only through the enum decoder, and then a
    lower-cased member name. *)
Lemma native_value_string (self : Entity) (s : string) :
  native_value _state self = Ok (VStr s) ->
  exists vm m,
    value_map (entity_description self) = Some vm
    /\ In m vm /\ s = lower (Enum.name m).
Proof.
  unfold native_value. destruct (_state self) as [[n|]|]; simpl; try discriminate.
  destruct (value_map (entity_description self)) as [vm|].
  - destruct (Enum.call vm n) as [m|] eqn:Hcall; simpl; [|discriminate].
    intros [= <-]. exists vm, m. split; [reflexivity|].
    split; [apply (enum_call_member vm n m Hcall) | reflexivity].
  - destruct (multiplication_factor (entity_description self)) as [factor|];
      [destruct (handle_conversion n factor); simpl; [|discriminate]|simpl];
      (destruct (imperial_conversion (entity_description self)) as [conv|];
       [destruct (_ && _);
        [match goal with
         | |- context [handle_conversion ?a ?b] =>
             destruct (handle_conversion a b)
         end|]|]); simpl; discriminate.
Qed.

(** The label an enum sensor renders is always one of the options its
    description announces: [__post_init__] derives the options from the
    same enum that [native_value] decodes with. *)
Theorem rendered_label_is_an_option (fields d : TomorrowioSensorEntityDescription)
    (self : Entity) (s : string) :
  __post_init__ fields = Ok d ->
  entity_description self = d ->
  native_value _state self = Ok (VStr s) ->
  device_class d = Some ENUM
  /\ exists opts, options d = Some opts /\ In s opts.
Proof.
  intros Hinit Hdesc Hrender.
  destruct (native_value_string self s Hrender) as (vm & m & Hvm & Hin & ->).
  rewrite Hdesc in Hvm.
  pose proof (post_init_value_map fields d Hinit) as Hsame.
  rewrite Hvm in Hsame. symmetry in Hsame.
  revert Hinit. unfold __post_init__. rewrite Hsame.
  destruct (_ || _); [discriminate|]. intros [= <-]. simpl.
  split; [reflexivity|]. eexists. split; [reflexivity|].
  apply in_map_iff. exists m. split; [reflexivity | exact Hin].
Qed.

(** A description with no decoder and no conversion renders the raw number
    as it is: an [int] stays an [int], whatever its size, a [float] stays
    that [float], in either unit system. *)
Lemma no_conversion_renders_raw (self : Entity) (n : num) :
  value_map (entity_description self) = None ->
  multiplication_factor (entity_description self) = None ->
  imperial_conversion (entity_description self) = None ->
  _state self = Ok (Some n) ->
  native_value _state self = Ok (VNum n).
Proof.
  intros Hvm Hfactor Hconv Hstate.
  unfold native_value. rewrite Hstate. simpl.
  rewrite Hvm, Hfactor. simpl. rewrite Hconv. reflexivity.
Qed.

(** The imperial step is skipped, and the state left by the multiplication
    step returned as it is, when the unit system is metric, when no
    imperial unit is given, when the two units are equal, or when the
    conversion is a constant equal to zero (a false value in the test of
    line 415), even on an imperial installation. *)
Theorem imperial_step_skipped (self : Entity) (conv : Conversion) (n : num) :
  value_map (entity_description self) = None ->
  imperial_conversion (entity_description self) = Some conv ->
  _state self = Ok (Some n) ->
  hass_config_units self = METRIC_SYSTEM
  \/ unit_imperial (entity_description self) = None
  \/ unit_imperial (entity_description self) = unit_metric (entity_description self)
  \/ (exists c, conv = Constant c /\ PrimFloat.eqb c 0%float = true) ->
  native_value _state self
  = let* s := after_multiplication (entity_description self) n in Ok (VNum s).
Proof.
  intros Hvm Hconv Hstate Hskip.
  rewrite (native_value_numeric _state self n Hvm Hstate), Hconv.
  assert (Hfalse : imperial_applies (hass_config_units self)
                     (entity_description self) conv = false).
  { unfold imperial_applies.
    destruct Hskip as [Hm|[Hnone|[Heq|(c & -> & Hzero)]]].
    - rewrite Hm. simpl. rewrite !andb_false_r. reflexivity.
    - rewrite Hnone. simpl. rewrite andb_false_r. reflexivity.
    - rewrite (bool_decide_eq_true_2 _ Heq). simpl.
      rewrite andb_false_r. reflexivity.
    - simpl. unfold float_truthy. rewrite Hzero. reflexivity. }
  rewrite Hfalse.
  destruct (after_multiplication (entity_description self) n); reflexivity.
Qed.

End MoreRendering.

Lemma rendered_label_is_an_option_witness :
  device_class (set_enum_fields Sample.everything ENUM
                  ["none"; "rain"; "snow"; "freezing_rain"; "ice_pellets"])
  = Some ENUM
  /\ exists opts,
       options (set_enum_fields Sample.everything ENUM
                  ["none"; "rain"; "snow"; "freezing_rain"; "ice_pellets"])
       = Some opts
       /\ In "snow" opts.
Proof.
  apply (rendered_label_is_an_option TomorrowioSensorEntity._state
           Sample.everything _
           (Sample.entity METRIC_SYSTEM
              (set_enum_fields Sample.everything ENUM
                 ["none"; "rain"; "snow"; "freezing_rain"; "ice_pellets"])
              {[ "sample" := VNum (NInt 2) ]})
           "snow"); vm_compute; reflexivity.
Defined.

Example huge_int_rendered_unconverted :
  TomorrowioSensorEntity.native_value
    (Sample.entity US_CUSTOMARY_SYSTEM SampleSetup.plain
       {[ "fireIndex" := VNum (NInt (10 ^ 400)) ]})
  = Ok (VNum (NInt (10 ^ 400))).
Proof.
  apply (no_conversion_renders_raw TomorrowioSensorEntity._state
           (Sample.entity US_CUSTOMARY_SYSTEM SampleSetup.plain
              {[ "fireIndex" := VNum (NInt (10 ^ 400)) ]})
           (NInt (10 ^ 400))); reflexivity.
Qed.

Example huge_int_overflows_with_factor :
  TomorrowioSensorEntity.native_value
    (Sample.entity METRIC_SYSTEM Sample.scaled
       {[ "sample" := VNum (NInt (10 ^ 400)) ]})
  = Raise (OverflowError "int too large to convert to float").
Proof. vm_compute. reflexivity. Qed.

Lemma imperial_step_skipped_witness :
  TomorrowioSensorEntity.native_value
    (Sample.entity US_CUSTOMARY_SYSTEM SampleSetup.zero_conversion
       {[ "sample" := VNum (NFloat 12.5%float) ]})
  = Ok (VNum (NFloat 12.5%float)).
Proof.
  refine (eq_trans
            (imperial_step_skipped TomorrowioSensorEntity._state
               (Sample.entity US_CUSTOMARY_SYSTEM SampleSetup.zero_conversion
                  {[ "sample" := VNum (NFloat 12.5%float) ]})
               (Constant 0%float) (NFloat 12.5%float) _ _ _ _) _);
    try (vm_compute; reflexivity).
  right. right. right. exists 0%float. split; reflexivity.
Defined.

(** Every exception rendering can raise, and where it comes from: the
    assertion of [_state] on a string, the enum call on a value outside the
    enum, and [float(value)] on an [int] beyond the float range when a
    conversion is configured. *)
Theorem native_value_exceptions (self : Entity) (e : exn) :
  TomorrowioSensorEntity.native_value self = Raise e ->
  (e = AssertionError
   /\ exists s, current self !! attribute (entity_description self) = Some (VStr s))
  \/ (exists msg vm,
        e = ValueError msg /\ value_map (entity_description self) = Some vm)
  \/ (exists msg z,
        e = OverflowError msg
        /\ current self !! attribute (entity_description self) = Some (VNum (NInt z))
        /\ value_map (entity_description self) = None
        /\ (multiplication_factor (entity_description self) <> None
            \/ imperial_conversion (entity_description self) <> None)).
Proof.
  unfold TomorrowioSensorEntity.native_value, native_value,
    TomorrowioSensorEntity._state, _get_current_property.
  destruct (current self !! attribute (entity_description self))
    as [[|n|s]|] eqn:Hlookup; simpl; try discriminate.
  - destruct (value_map (entity_description self)) as [vm|] eqn:Hvm.
    + destruct (Enum.call vm n) as [m|] eqn:Hcall; simpl; [discriminate|].
      intros [= <-]. right. left.
      destruct (enum_call_raises vm n _ Hcall) as [msg ->]. eauto.
    + destruct (multiplication_factor (entity_description self)) as [factor|] eqn:Hf.
      * destruct (handle_conversion n factor) as [x|e'] eqn:Hc; simpl.
        -- destruct (imperial_conversion (entity_description self)) as [conv|];
             [|discriminate].
           destruct (_ && _); [|discriminate].
           destruct (handle_conversion_float x conv) as [y Hy]. rewrite Hy.
           discriminate.
        -- intros [= <-]. right. right.
           destruct (handle_conversion_raises n factor e' Hc) as (z & msg & -> & ->).
           exists msg, z. repeat split; auto; left; discriminate.
      * simpl.
        destruct (imperial_conversion (entity_description self)) as [conv|] eqn:Hi;
          [|discriminate].
        destruct (_ && _); [|discriminate].
        destruct (handle_conversion n conv) as [x|e'] eqn:Hc; simpl; [discriminate|].
        intros [= <-]. right. right.
        destruct (handle_conversion_raises n conv e' Hc) as (z & msg & -> & ->).
        exists msg, z. repeat split; auto; right; discriminate.
  - intros [= <-]. left. split; [reflexivity|]. eauto.
Qed.

Lemma native_value_exceptions_witness :
  (OverflowError "int too large to convert to float" = AssertionError
   /\ exists s,
        current SampleSetup.overflowing
        !! attribute (entity_description SampleSetup.overflowing) = Some (VStr s))
  \/ (exists msg vm,
        OverflowError "int too large to convert to float" = ValueError msg
        /\ value_map (entity_description SampleSetup.overflowing) = Some vm)
  \/ (exists msg z,
        OverflowError "int too large to convert to float" = OverflowError msg
        /\ current SampleSetup.overflowing
           !! attribute (entity_description SampleSetup.overflowing)
           = Some (VNum (NInt z))
        /\ value_map (entity_description SampleSetup.overflowing) = None
        /\ (multiplication_factor (entity_description SampleSetup.overflowing) <> None
            \/ imperial_conversion (entity_description SampleSetup.overflowing) <> None)).
Proof.
  apply (native_value_exceptions SampleSetup.overflowing
           (OverflowError "int too large to convert to float")).
  vm_compute. reflexivity.
Defined.

(** A [float] raw value never makes rendering raise when no enum decoder
    is configured, and the rendered value is again a [float]. *)
Theorem float_state_renders_float (self : Entity) (x : float) :
  current self !! attribute (entity_description self) = Some (VNum (NFloat x)) ->
  value_map (entity_description self) = None ->
  exists y, TomorrowioSensorEntity.native_value self = Ok (VNum (NFloat y)).
Proof.
  intros Hlookup Hvm.
  unfold TomorrowioSensorEntity.native_value, native_value,
    TomorrowioSensorEntity._state, _get_current_property.
  rewrite Hlookup. simpl. rewrite Hvm.
  destruct (multiplication_factor (entity_description self)) as [factor|].
  - destruct (handle_conversion_float x factor) as [y ->]. simpl.
    destruct (imperial_conversion (entity_description self)) as [conv|]; [|eauto].
    destruct (_ && _); [|eauto].
    destruct (handle_conversion_float y conv) as [w ->]. simpl. eauto.
  - simpl.
    destruct (imperial_conversion (entity_description self)) as [conv|]; [|eauto].
    destruct (_ && _); [|eauto].
    destruct (handle_conversion_float x conv) as [w ->]. simpl. eauto.
Qed.

Lemma float_state_renders_float_witness :
  exists y,
    TomorrowioSensorEntity.native_value
      (Sample.entity US_CUSTOMARY_SYSTEM Sample.doubled_then_tripled
         {[ "sample" := VNum (NFloat infinity) ]})
    = Ok (VNum (NFloat y)).
Proof.
  apply (float_state_renders_float
           (Sample.entity US_CUSTOMARY_SYSTEM Sample.doubled_then_tripled
              {[ "sample" := VNum (NFloat infinity) ]})
           infinity); vm_compute; reflexivity.
Defined.

(** ** The description table *)

(** The keys of the table, in the order of the source. *)
Lemma table_evaluates (I : Imports) :
  exists l,
    Table.SENSOR_TYPES I = Ok l
    /\ List.map key l
       = [ "feels_like"; "dew_point"; "pressure_surface_level";
           "global_horizontal_irradiance"; "cloud_base"; "cloud_ceiling";
           "cloud_cover"; "wind_gust"; "precipitation_type"; "ozone";
           "particulate_matter_2_5_mm"; "particulate_matter_10_mm";
           "nitrogen_dioxide"; "carbon_monoxide"; "sulphur_dioxide";
           "us_epa_air_quality_index"; "us_epa_primary_pollutant";
           "us_epa_health_concern"; "china_mep_air_quality_index";
           "china_mep_primary_pollutant"; "china_mep_health_concern";
           "tree_pollen_index"; "weed_pollen_index"; "grass_pollen_index";
           "fire_index"; "uv_index"; "uv_radiation_health_concern" ]
    /\ Forall (fun d => multiplication_factor d = None
                        \/ imperial_conversion d = None) l
    /\ Forall (fun d => native_unit_of_measurement d <> None ->
                        unit_imperial d = None /\ unit_metric d = None
                        /\ imperial_conversion d = None) l
    /\ Forall (fun d => forall conv, imperial_conversion d = Some conv ->
                        conversion_truthy conv = true) l.
Proof.
  eexists. split; [reflexivity|]. split; [reflexivity|].
  split; [|split].
  - repeat (apply Forall_cons; split; [simpl; auto|]). apply List.Forall_nil.
  - repeat (apply Forall_cons; split;
            [simpl; intros H; try (exfalso; apply H; reflexivity); auto|]).
    apply List.Forall_nil.
  - repeat (apply Forall_cons; split;
            [simpl; intros conv [= <-] || (simpl; intros conv H; discriminate H);
             vm_compute; reflexivity|]).
    apply List.Forall_nil.
Qed.

(** Importing the module never fails on the table: whatever the imported
    unit names, attribute names and enums are, each of the 27 constructor
    calls passes the validation of [__post_init__], and the keys of the
    descriptions are pairwise distinct. *)
Theorem table_constructs_with_distinct_keys (I : Imports) :
  exists l,
    Table.SENSOR_TYPES I = Ok l
    /\ length l = 27%nat
    /\ NoDup (List.map key l).
Proof.
  destruct (table_evaluates I) as (l & Hl & Hkeys & _).
  exists l. split; [exact Hl|]. split.
  - rewrite <- (length_map key), Hkeys. reflexivity.
  - rewrite Hkeys. apply (bool_decide_unpack _). vm_compute. exact Logic.I.
Qed.

Lemma native_value_one_conversion (_state : Entity -> result (option num))
    (self : Entity) (raw : option num) :
  _state self = Ok raw ->
  multiplication_factor (entity_description self) = None
  \/ imperial_conversion (entity_description self) = None ->
  native_value _state self
  = rendering_else_chain (hass_config_units self) (entity_description self) raw.
Proof.
  intros Hstate Hone. unfold rendering_else_chain, native_value.
  rewrite Hstate. simpl. destruct raw as [n|]; [|reflexivity].
  unfold imperial_applies.
  destruct (value_map (entity_description self)); [reflexivity|].
  destruct Hone as [-> | ->]; simpl.
  - destruct (imperial_conversion (entity_description self)); reflexivity.
  - destruct (multiplication_factor (entity_description self)) as [factor|];
      [destruct (handle_conversion n factor)|]; reflexivity.
Qed.

(** On the descriptions the module ships, rendering is the exclusive chain
    of steps 1 to 5: no entry of the table configures both a multiplication
    factor and an imperial conversion, so for every entry, state and unit
    system [native_value] and the chain agree. *)
Theorem table_renders_as_chain (I : Imports)
    (_state : Entity -> result (option num))
    (l : list TomorrowioSensorEntityDescription) (self : Entity)
    (raw : option num) :
  Table.SENSOR_TYPES I = Ok l ->
  In (entity_description self) l ->
  _state self = Ok raw ->
  native_value _state self
  = rendering_else_chain (hass_config_units self) (entity_description self) raw.
Proof.
  intros Hl Hin Hstate.
  destruct (table_evaluates I) as (l' & Hl' & _ & Hone & _).
  rewrite Hl in Hl'. injection Hl' as <-.
  apply native_value_one_conversion; [exact Hstate|].
  rewrite List.Forall_forall in Hone. apply Hone, Hin.
Qed.

Lemma table_renders_as_chain_witness :
  native_value TomorrowioSensorEntity._state SampleSetup.ozone_entity
  = rendering_else_chain (hass_config_units SampleSetup.ozone_entity)
      (entity_description SampleSetup.ozone_entity) (Some (NInt 100)).
Proof.
  refine (table_renders_as_chain SampleSetup.imports TomorrowioSensorEntity._state
            _ SampleSetup.ozone_entity (Some (NInt 100)) _ _ _).
  - reflexivity.
  - do 9 right. left. reflexivity.
  - vm_compute. reflexivity.
Defined.

(** ** Entity construction *)

Lemma append_cancel_l (p a b : string) : p ++ a = p ++ b -> a = b.
Proof.
  induction p as [|c p IH]; simpl; [auto|]. intros [= H]. auto.
Qed.

Section Construction.

Variable I : Imports.

(** For one config entry, the unique id determines the description key:
    entities built from descriptions with different keys never share a
    unique id. *)
Theorem unique_id_determines_key (units1 units2 : UnitSystem)
    (config_entry : ConfigEntry) (snapshot1 snapshot2 : gmap string Py.value)
    (d1 d2 : TomorrowioSensorEntityDescription) (e1 e2 : Entity) (a1 a2 : Attrs) :
  Setup.__init__ I units1 config_entry snapshot1 d1 = Ok (e1, a1) ->
  Setup.__init__ I units2 config_entry snapshot2 d2 = Ok (e2, a2) ->
  _attr_unique_id a1 = _attr_unique_id a2 ->
  key d1 = key d2.
Proof.
  unfold Setup.__init__.
  destruct (getitem (entry_data config_entry) (CONF_NAME I)); simpl;
    [|discriminate].
  intros [= <- <-] [= <- <-]. simpl. intros Heq.
  apply append_cancel_l in Heq. apply (append_cancel_l "_") in Heq. exact Heq.
Qed.

(** The unit an entity shows and the value it renders go together: with no
    fixed native unit and a conversion that is not a zero constant, the
    imperial conversion is applied exactly when [__init__] chose a unit
    other than the metric one. *)
Theorem displayed_unit_matches_conversion
    (_state : Entity -> result (option num)) (units : UnitSystem)
    (config_entry : ConfigEntry) (snapshot : gmap string Py.value)
    (d : TomorrowioSensorEntityDescription) (e : Entity) (a : Attrs)
    (conv : Conversion) (n : num) :
  Setup.__init__ I units config_entry snapshot d = Ok (e, a) ->
  native_unit_of_measurement d = None ->
  value_map d = None ->
  imperial_conversion d = Some conv ->
  conversion_truthy conv = true ->
  _state e = Ok (Some n) ->
  native_value _state e
  = let* s := after_multiplication d n in
    match _attr_native_unit_of_measurement a with
    | Some (Some u) =>
        if bool_decide (Some u = unit_metric d)
        then Ok (VNum s)
        else let* x := handle_conversion s conv in Ok (VNum (NFloat x))
    | _ => Ok (VNum s)
    end.
Proof.
  unfold Setup.__init__.
  destruct (getitem (entry_data config_entry) (CONF_NAME I)); simpl;
    [|discriminate].
  intros [= <- <-] Hunit Hvm Hconv Htruthy Hstate.
  rewrite (native_value_numeric _state
             {| hass_config_units := units; entity_description := d;
                current := snapshot |} n Hvm Hstate). simpl.
  rewrite Hconv, Hunit. simpl. unfold imperial_applies. rewrite Htruthy.
  destruct (after_multiplication d n) as [s|]; [|reflexivity]. simpl.
  destruct units; simpl.
  - rewrite !andb_false_r.
    destruct (unit_metric d) as [um|]; [|reflexivity].
    rewrite bool_decide_eq_true_2 by reflexivity. reflexivity.
  - rewrite andb_true_r.
    destruct (unit_imperial d) as [ui|]; simpl; [|reflexivity].
    destruct (bool_decide (Some ui = unit_metric d)); reflexivity.
Qed.

(** Thanks to the validation of [__post_init__], an entity is never given
    a unit in one unit system and none in the other. *)
Theorem unit_presence_independent_of_system
    (config_entry : ConfigEntry) (snapshot : gmap string Py.value)
    (fields d : TomorrowioSensorEntityDescription) (e1 e2 : Entity) (a1 a2 : Attrs) :
  __post_init__ fields = Ok d ->
  Setup.__init__ I METRIC_SYSTEM config_entry snapshot d = Ok (e1, a1) ->
  Setup.__init__ I US_CUSTOMARY_SYSTEM config_entry snapshot d = Ok (e2, a2) ->
  (_attr_native_unit_of_measurement a1 = Some None
   <-> _attr_native_unit_of_measurement a2 = Some None).
Proof.
  intros Hpost. pose proof (post_init_units_agree fields d Hpost) as Hagree.
  unfold Setup.__init__.
  destruct (getitem (entry_data config_entry) (CONF_NAME I)); simpl;
    [|discriminate].
  intros [= <- <-] [= <- <-]. simpl.
  destruct (native_unit_of_measurement d); simpl; [split; discriminate|].
  destruct (unit_imperial d), (unit_metric d); simpl in *;
    try discriminate Hagree; split; congruence.
Qed.

(** [async_setup_entry] builds one entity per table entry, in table order,
    each on the coordinator stored under the entry's API key, and their
    unique ids are pairwise distinct. *)
Theorem setup_creates_distinct_entities (units : UnitSystem)
    (hass_data : gmap string (gmap string (gmap string Py.value)))
    (config_entry : ConfigEntry) (per_domain : gmap string (gmap string Py.value))
    (api_key conf_name : string) (coordinator : gmap string Py.value) :
  hass_data !! DOMAIN I = Some per_domain ->
  entry_data config_entry !! CONF_API_KEY I = Some api_key ->
  per_domain !! api_key = Some coordinator ->
  entry_data config_entry !! CONF_NAME I = Some conf_name ->
  exists entities table,
    Setup.async_setup_entry I units hass_data config_entry = Ok entities
    /\ Table.SENSOR_TYPES I = Ok table
    /\ List.map (fun ea => entity_description (fst ea)) entities = table
    /\ Forall (fun ea => current (fst ea) = coordinator
                         /\ hass_config_units (fst ea) = units) entities
    /\ NoDup (List.map (fun ea => _attr_unique_id (snd ea)) entities).
Proof.
  intros Hdomain Hkey Hcoord Hname.
  unfold Setup.async_setup_entry, getitem.
  rewrite Hdomain, Hkey. cbn [bind]. rewrite Hcoord. cbn [bind].
  destruct (table_evaluates I) as (l & Hl & Hkeys & _).
  rewrite Hl. cbn [bind].
  assert (Htraverse :
    traverse (Setup.__init__ I units config_entry coordinator) l
    = Ok (List.map
            (fun d =>
               ({| hass_config_units := units; entity_description := d;
                   current := coordinator |},
                {| _attr_name := conf_name ++ " - " ++ name d;
                   _attr_unique_id :=
                     format_optional (unique_id config_entry) ++ "_" ++ key d;
                   _attr_native_unit_of_measurement :=
                     if is_none (native_unit_of_measurement d)
                     then Some (if is_us_customary units
                                then unit_imperial d else unit_metric d)
                     else None |})) l)).
  { clear Hl Hkeys. induction l as [|d l IH]; simpl; [reflexivity|].
    unfold Setup.__init__ at 1, getitem. rewrite Hname. simpl.
    rewrite IH. reflexivity. }
  rewrite Htraverse. eexists _, l. split; [reflexivity|]. split; [reflexivity|].
  split; [|split].
  - rewrite List.map_map. simpl. apply List.map_id.
  - apply List.Forall_forall. intros ea Hin.
    apply in_map_iff in Hin as (d & <- & _). split; reflexivity.
  - rewrite List.map_map. simpl.
    rewrite <- (List.map_map key
                  (fun k => format_optional (unique_id config_entry) ++ "_" ++ k)).
    rewrite Hkeys. apply (NoDup_fmap_2 _).
    apply (bool_decide_unpack _). vm_compute. exact Logic.I.
Qed.

End Construction.

Lemma unique_id_determines_key_witness :
  key Sample.scaled = key Sample.cloud_base.
Proof.
  refine (unique_id_determines_key SampleSetup.imports
            METRIC_SYSTEM US_CUSTOMARY_SYSTEM SampleSetup.config_entry
            SampleSetup.snapshot ∅ Sample.scaled Sample.cloud_base
            _ _ _ _ _ _ _); [reflexivity | reflexivity | reflexivity].
Defined.

Example init_of_ozone :
  Setup.__init__ SampleSetup.imports US_CUSTOMARY_SYSTEM
    SampleSetup.config_entry SampleSetup.snapshot SampleSetup.ozone_description
  = Ok (SampleSetup.ozone_entity,
        {| _attr_name := "Home - Ozone";
           _attr_unique_id := "k3y_52.5_13.4_ozone";
           _attr_native_unit_of_measurement := None |}).
Proof. reflexivity. Qed.

(** Across config entries the unique id can repeat: the separator may
    occur in either part. *)
Example unique_id_across_entries :
  format_optional (Some "a_b") ++ "_" ++ "c"
  = format_optional (Some "a") ++ "_" ++ "b_c".
Proof. reflexivity. Qed.

Example init_without_name :
  Setup.__init__ SampleSetup.imports METRIC_SYSTEM
    {| entry_data := ∅; unique_id := None; entry_id := "e" |}
    ∅ SampleSetup.plain
  = Raise (Exception "KeyError: name").
Proof. reflexivity. Qed.

Lemma displayed_unit_matches_conversion_witness :
  TomorrowioSensorEntity.native_value
    (Sample.entity US_CUSTOMARY_SYSTEM Sample.cloud_base
       {[ "sample" := VNum (NFloat 10%float) ]})
  = Ok (VNum (NFloat 6.21%float)).
Proof.
  refine (eq_trans
            (displayed_unit_matches_conversion SampleSetup.imports
               TomorrowioSensorEntity._state US_CUSTOMARY_SYSTEM
               SampleSetup.config_entry {[ "sample" := VNum (NFloat 10%float) ]}
               Sample.cloud_base _ _ (Callable Sample.km_to_mi) (NFloat 10%float)
               _ _ _ _ _ _) _);
    try reflexivity; vm_compute; reflexivity.
Defined.

Lemma unit_presence_independent_of_system_witness :
  Some (Some "km") = Some None <-> Some (Some "mi") = Some None.
Proof.
  refine (unit_presence_independent_of_system SampleSetup.imports
            SampleSetup.config_entry ∅ Sample.cloud_base Sample.cloud_base
            _ _
            {| _attr_name := "Home - Sample";
               _attr_unique_id := "k3y_52.5_13.4_sample";
               _attr_native_unit_of_measurement := Some (Some "km") |}
            {| _attr_name := "Home - Sample";
               _attr_unique_id := "k3y_52.5_13.4_sample";
               _attr_native_unit_of_measurement := Some (Some "mi") |}
            _ _ _); reflexivity.
Defined.

Lemma setup_creates_distinct_entities_witness :
  exists entities table,
    Setup.async_setup_entry SampleSetup.imports US_CUSTOMARY_SYSTEM
      SampleSetup.hass_data SampleSetup.config_entry = Ok entities
    /\ Table.SENSOR_TYPES SampleSetup.imports = Ok table
    /\ List.map (fun ea => entity_description (fst ea)) entities = table
    /\ Forall (fun ea => current (fst ea) = SampleSetup.snapshot
                         /\ hass_config_units (fst ea) = US_CUSTOMARY_SYSTEM)
         entities
    /\ NoDup (List.map (fun ea => _attr_unique_id (snd ea)) entities).
Proof.
  apply (setup_creates_distinct_entities SampleSetup.imports US_CUSTOMARY_SYSTEM
           SampleSetup.hass_data SampleSetup.config_entry
           {[ "k3y" := SampleSetup.snapshot ]} "k3y" "Home" SampleSetup.snapshot);
    vm_compute; reflexivity.
Defined.

Example setup_without_coordinator :
  Setup.async_setup_entry SampleSetup.imports METRIC_SYSTEM ∅ SampleSetup.config_entry
  = Raise (Exception "KeyError: tomorrowio").
Proof. reflexivity. Qed.

(** ** The Meteoclimatic adapter *)

(** Whatever the client does, the provider's error never leaves the update
    method.  A snapshot is returned exactly when the fetch returned an
    object, and it is that object's attribute dictionary; an exception is
    raised exactly when the fetch raised one: the same exception when it is
    not the provider's, and [UpdateFailed] with the provider's error as
    cause when it is. *)
Theorem update_method_outcomes (station_code : string)
    (weather_at_station : string -> result Meteoclimatic.Observation) :
  (forall msg,
     Meteoclimatic.async_update_data station_code weather_at_station
     <> Raise (MeteoclimaticError msg))
  /\ (forall snapshot,
        Meteoclimatic.async_update_data station_code weather_at_station = Ok snapshot
        <-> exists obs, weather_at_station station_code = Ok obs
                        /\ Meteoclimatic.__dict__ obs = snapshot)
  /\ (forall e,
        Meteoclimatic.async_update_data station_code weather_at_station = Raise e
        <-> (weather_at_station station_code = Raise e
             /\ forall msg, e <> MeteoclimaticError msg)
            \/ (exists msg,
                  weather_at_station station_code = Raise (MeteoclimaticError msg)
                  /\ e = UpdateFailed ("Error while retrieving data: " ++ msg)
                           (Some (MeteoclimaticError msg)))).
Proof.
  unfold Meteoclimatic.async_update_data.
  destruct (weather_at_station station_code) as [obs|err].
  - split; [discriminate|]. split.
    + intros snapshot. split.
      * intros [= <-]. eauto.
      * intros (obs' & [= <-] & <-). reflexivity.
    + intros e. split; [discriminate|].
      intros [[H _]|(msg & H & _)]; discriminate H.
  - split; [intros msg; destruct err; discriminate|]. split.
    + intros snapshot. split; [destruct err; discriminate|].
      intros (obs & Hobs & _). discriminate Hobs.
    + intros e. split.
      * destruct err; intros [= <-];
          solve [ left; split; [reflexivity | discriminate]
                | right; eexists; split; reflexivity ].
      * intros [[[= <-] Hother]|(msg & [= ->] & ->)]; [|reflexivity].
        destruct err; try reflexivity. exfalso. eapply Hother. reflexivity.
Qed.

Section MeteoclimaticSetup.

Variables DOMAIN CONF_STATION_CODE : string.
Variable new_coordinator : Meteoclimatic.Coordinator.
Variable async_config_entry_first_refresh :
  Meteoclimatic.Coordinator -> result (gmap string Py.value) ->
  result Meteoclimatic.Coordinator.
Variable weather_at_station : string -> result Meteoclimatic.Observation.

Let setup :=
  MeteoclimaticSetup.async_setup_entry DOMAIN CONF_STATION_CODE new_coordinator
    async_config_entry_first_refresh weather_at_station.

(** A setup that raises stores nothing: [hass.data] is written only after
    the first refresh has returned, so a failing first refresh (or a
    missing station code) leaves it as it was. *)
Theorem failed_setup_leaves_hass_data
    (hass_data : gmap string (gmap string Meteoclimatic.Coordinator))
    (entry : ConfigEntry) (e : exn) :
  snd (setup hass_data entry) = Raise e ->
  fst (setup hass_data entry) = hass_data.
Proof.
  unfold setup, MeteoclimaticSetup.async_setup_entry.
  destruct (getitem (entry_data entry) CONF_STATION_CODE) as [station|];
    [|reflexivity].
  destruct (async_config_entry_first_refresh _ _); [discriminate|reflexivity].
Qed.

(** A successful setup returns [True] and files the refreshed coordinator
    under the domain and the entry id; coordinators of other entries of the
    domain and the data of other domains stay as they were. *)
Theorem setup_stores_coordinator
    (hass_data : gmap string (gmap string Meteoclimatic.Coordinator))
    (entry : ConfigEntry) (station : string) (c : Meteoclimatic.Coordinator) :
  entry_data entry !! CONF_STATION_CODE = Some station ->
  async_config_entry_first_refresh new_coordinator
    (Meteoclimatic.async_update_data station weather_at_station) = Ok c ->
  snd (setup hass_data entry) = Ok true
  /\ (exists per_domain,
        fst (setup hass_data entry) !! DOMAIN = Some per_domain
        /\ per_domain !! entry_id entry = Some c
        /\ forall other, other <> entry_id entry ->
             per_domain !! other = (hass_data !! DOMAIN) ≫= (fun m => m !! other))
  /\ (forall domain, domain <> DOMAIN ->
        fst (setup hass_data entry) !! domain = hass_data !! domain).
Proof.
  intros Hstation Hrefresh.
  unfold setup, MeteoclimaticSetup.async_setup_entry, getitem.
  rewrite Hstation, Hrefresh. simpl. split; [reflexivity|]. split.
  - eexists. split; [apply lookup_insert_eq|]. split; [apply lookup_insert_eq|].
    intros other Hother. rewrite lookup_insert_ne by congruence.
    destruct (hass_data !! DOMAIN); simpl; [reflexivity | apply lookup_empty].
  - intros domain Hdomain. apply lookup_insert_ne. congruence.
Qed.

End MeteoclimaticSetup.

Lemma failed_setup_leaves_hass_data_witness :
  fst (MeteoclimaticSetup.async_setup_entry "meteoclimatic" "station_code"
         SampleSetup.fresh_coordinator SampleSetup.first_refresh
         SampleSetup.station_down SampleSetup.other_entry_stored
         SampleSetup.meteo_entry)
  = SampleSetup.other_entry_stored.
Proof.
  apply (failed_setup_leaves_hass_data "meteoclimatic" "station_code"
           SampleSetup.fresh_coordinator SampleSetup.first_refresh
           SampleSetup.station_down SampleSetup.other_entry_stored
           SampleSetup.meteo_entry (Exception "ConfigEntryNotReady")).
  vm_compute. reflexivity.
Defined.

Lemma setup_stores_coordinator_witness :
  snd (MeteoclimaticSetup.async_setup_entry "meteoclimatic" "station_code"
         SampleSetup.fresh_coordinator SampleSetup.first_refresh
         SampleSetup.station_up SampleSetup.other_entry_stored
         SampleSetup.meteo_entry)
  = Ok true
  /\ fst (MeteoclimaticSetup.async_setup_entry "meteoclimatic" "station_code"
            SampleSetup.fresh_coordinator SampleSetup.first_refresh
            SampleSetup.station_up SampleSetup.other_entry_stored
            SampleSetup.meteo_entry)
     !! "other_domain"
     = SampleSetup.other_entry_stored !! "other_domain".
Proof.
  destruct (setup_stores_coordinator "meteoclimatic" "station_code"
              SampleSetup.fresh_coordinator SampleSetup.first_refresh
              SampleSetup.station_up SampleSetup.other_entry_stored
              SampleSetup.meteo_entry "ESCAT4300000043206B"
              (Meteoclimatic.refresh
                 (Ok {[ "temp_current" := VNum (NFloat 21.5%float) ]})
                 SampleSetup.fresh_coordinator)
              eq_refl eq_refl) as (Htrue & _ & Hother).
  split; [exact Htrue|]. apply Hother. discriminate.
Defined.

Example setup_keeps_other_entry :
  (fst (MeteoclimaticSetup.async_setup_entry "meteoclimatic" "station_code"
          SampleSetup.fresh_coordinator SampleSetup.first_refresh
          SampleSetup.station_up SampleSetup.other_entry_stored
          SampleSetup.meteo_entry)
   !! "meteoclimatic") ≫= (fun m => m !! "0000000000000000")
  = Some SampleSetup.fresh_coordinator.
Proof. vm_compute. reflexivity. Qed.
